(** * Fever Smart Bluetooth integration: sensor translation, coordinator
      start-up and configuration flow.

    A shallow embedding of [sensor.py], [coordinator.py] and
    [config_flow.py] of the [fever_smart] component.  Python dictionaries
    are finite maps ([gmap]), Python sets are finite sets ([gset]), values
    that may be [None] are [option]s, and code that can raise returns a
    [result]. *)

From Stdlib Require Import ZArith Floats.SpecFloat.
From stdpp Require Import base option strings countable list gmap fin_maps fin_map_dom.

Open Scope string_scope.

(** ** Exceptions *)

(** [AbortFlow] is the exception by which a config flow step ends the flow. *)
Inductive exn :=
  | AssertionError
  | KeyError
  | AbortFlow (reason : string).

Inductive result (A : Type) :=
  | Ok (a : A)
  | Raise (e : exn).
Arguments Ok {A} a.
Arguments Raise {A} e.

Definition bind {A B} (r : result A) (k : A → result B) : result B :=
  match r with
  | Ok a => k a
  | Raise e => Raise e
  end.

Notation "'let*' x := r 'in' k" := (bind r (fun x => k))
  (at level 10, x name, r at level 100, k at level 200).

(** [f"{x}"] for a value of type [str | None]. *)
Definition fstr (x : option string) : string :=
  match x with
  | Some s => s
  | None => "None"
  end.

(** ** The [sensor_state_data] records read by [sensor.py]

    Every class is a module of its own, so that [SensorValue.name v] and
    [SSDSensorDeviceClass.TEMPERATURE] read as they do in the source. *)

(** Members of the string enumeration [SensorDeviceClass] of
    [sensor_state_data] (imported as [SSDSensorDeviceClass]).  [sensor.py]
    names three of them; [other] stands for every further member and
    carries its string value. *)
Module SSDSensorDeviceClass.

Inductive t :=
  | TEMPERATURE
  | BATTERY
  | SIGNAL_STRENGTH
  | other (value : string).

Definition str (c : t) : string :=
  match c with
  | TEMPERATURE => "temperature"
  | BATTERY => "battery"
  | SIGNAL_STRENGTH => "signal_strength"
  | other v => v
  end.

#[global] Instance eq_dec : EqDecision t.
Proof. solve_decision. Defined.

#[global] Instance countable : Countable t.
Proof.
  refine (inj_countable'
    (λ c, match c with
          | TEMPERATURE => inl 0%nat
          | BATTERY => inl 1%nat
          | SIGNAL_STRENGTH => inl 2%nat
          | other v => inr v
          end)
    (λ x, match x with
          | inl 0%nat => TEMPERATURE
          | inl 1%nat => BATTERY
          | inl _ => SIGNAL_STRENGTH
          | inr v => other v
          end) _).
  by intros [].
Defined.

End SSDSensorDeviceClass.

(** Members of the string enumeration [Units], in the same way. *)
Module Units.

Inductive t :=
  | TEMP_CELSIUS
  | PERCENTAGE
  | SIGNAL_STRENGTH_DECIBELS_MILLIWATT
  | other (value : string).

Definition str (u : t) : string :=
  match u with
  | TEMP_CELSIUS => "°C"
  | PERCENTAGE => "%"
  | SIGNAL_STRENGTH_DECIBELS_MILLIWATT => "dBm"
  | other v => v
  end.

#[global] Instance eq_dec : EqDecision t.
Proof. solve_decision. Defined.

#[global] Instance countable : Countable t.
Proof.
  refine (inj_countable'
    (λ c, match c with
          | TEMP_CELSIUS => inl 0%nat
          | PERCENTAGE => inl 1%nat
          | SIGNAL_STRENGTH_DECIBELS_MILLIWATT => inl 2%nat
          | other v => inr v
          end)
    (λ x, match x with
          | inl 0%nat => TEMP_CELSIUS
          | inl 1%nat => PERCENTAGE
          | inl _ => SIGNAL_STRENGTH_DECIBELS_MILLIWATT
          | inr v => other v
          end) _).
  by intros [].
Defined.

End Units.

Module DeviceKey.

Record t := mk {
  key : string;
  device_id : option string;
}.

#[global] Instance eq_dec : EqDecision t.
Proof. solve_decision. Defined.

#[global] Instance countable : Countable t.
Proof.
  refine (inj_countable' (λ k, (key k, device_id k)) (λ p, mk p.1 p.2) _).
  by intros [].
Defined.

End DeviceKey.

Module SensorDeviceInfo.

Record t := mk {
  name : option string;
  model : option string;
  manufacturer : option string;
  sw_version : option string;
  hw_version : option string;
}.

End SensorDeviceInfo.

Module SensorDescription.

Record t := mk {
  device_key : DeviceKey.t;
  device_class : option SSDSensorDeviceClass.t;
  native_unit_of_measurement : option Units.t;
}.

End SensorDescription.

(** A sensor reading: [None | str | int | float]. *)
Inductive NativeValue :=
  | NoValue
  | StrValue (s : string)
  | IntValue (z : Z)
  | FloatValue (f : spec_float).

Module SensorValue.

Record t := mk {
  device_key : DeviceKey.t;
  name : option string;
  native_value : NativeValue;
}.

End SensorValue.

Module SensorUpdate.

Record t := mk {
  title : option string;
  devices : gmap (option string) SensorDeviceInfo.t;
  entity_descriptions : gmap DeviceKey.t SensorDescription.t;
  entity_values : gmap DeviceKey.t SensorValue.t;
}.

End SensorUpdate.

(** ** Host-framework types used by [sensor.py] *)

(** Modelled from the spec: [const.py] of the component is not among the
    sources; the domain of the integration is the name of its package. *)
Definition DOMAIN : string := "fever_smart".

(** Elements of the Python sets stored under [ATTR_IDENTIFIERS]: [None],
    a string, or a pair of strings. *)
Inductive identifier :=
  | id_none
  | id_str (s : string)
  | id_tuple (a b : string).

#[global] Instance identifier_eq_dec : EqDecision identifier.
Proof. solve_decision. Defined.

#[global] Instance identifier_countable : Countable identifier.
Proof.
  refine (inj_countable'
    (λ i, match i with
          | id_none => inl ()
          | id_str s => inr (inl s)
          | id_tuple a b => inr (inr (a, b))
          end)
    (λ x, match x with
          | inl _ => id_none
          | inr (inl s) => id_str s
          | inr (inr p) => id_tuple p.1 p.2
          end) _).
  by intros [].
Defined.

(** A string or [None] as an element of a set. *)
Definition id_of (x : option string) : identifier :=
  match x with
  | Some s => id_str s
  | None => id_none
  end.

(** The [DeviceInfo] typed dictionary.  A field is [None] when its key is
    absent; [ATTR_NAME] can be present with the value [None]. *)
Module DeviceInfo.

Record t := mk {
  ATTR_NAME : option (option string);
  ATTR_MANUFACTURER : option string;
  ATTR_MODEL : option string;
  ATTR_SW_VERSION : option string;
  ATTR_IDENTIFIERS : option (gset identifier);
}.

Definition empty : t := mk None None None None None.

Definition set_name (v : option string) (d : t) : t :=
  mk (Some v) (ATTR_MANUFACTURER d) (ATTR_MODEL d) (ATTR_SW_VERSION d)
     (ATTR_IDENTIFIERS d).

Definition set_manufacturer (v : string) (d : t) : t :=
  mk (ATTR_NAME d) (Some v) (ATTR_MODEL d) (ATTR_SW_VERSION d)
     (ATTR_IDENTIFIERS d).

Definition set_model (v : string) (d : t) : t :=
  mk (ATTR_NAME d) (ATTR_MANUFACTURER d) (Some v) (ATTR_SW_VERSION d)
     (ATTR_IDENTIFIERS d).

Definition set_sw_version (v : string) (d : t) : t :=
  mk (ATTR_NAME d) (ATTR_MANUFACTURER d) (ATTR_MODEL d) (Some v)
     (ATTR_IDENTIFIERS d).

Definition set_identifiers (v : gset identifier) (d : t) : t :=
  mk (ATTR_NAME d) (ATTR_MANUFACTURER d) (ATTR_MODEL d) (ATTR_SW_VERSION d)
     (Some v).

End DeviceInfo.

Module SensorDeviceClass.
Inductive t := TEMPERATURE | BATTERY | SIGNAL_STRENGTH.
End SensorDeviceClass.

Module SensorStateClass.
Inductive t := MEASUREMENT.
End SensorStateClass.

Module EntityCategory.
Inductive t := DIAGNOSTIC.
End EntityCategory.

(** String constants of [homeassistant.const]. *)
Module UnitOfTemperature.
Definition CELSIUS : string := "°C".
End UnitOfTemperature.

Definition PERCENTAGE : string := "%".

Module SensorEntityDescription.

Record t := mk {
  key : string;
  device_class : SensorDeviceClass.t;
  native_unit_of_measurement : string;
  state_class : SensorStateClass.t;
  entity_registry_enabled_default : bool;
  entity_category : option EntityCategory.t;
}.

End SensorEntityDescription.

Module PassiveBluetoothEntityKey.

Record t := mk {
  key : string;
  device_id : option string;
}.

#[global] Instance eq_dec : EqDecision t.
Proof. solve_decision. Defined.

#[global] Instance countable : Countable t.
Proof.
  refine (inj_countable' (λ k, (key k, device_id k)) (λ p, mk p.1 p.2) _).
  by intros [].
Defined.

End PassiveBluetoothEntityKey.

Module PassiveBluetoothDataUpdate.

Record t := mk {
  devices : gmap (option string) DeviceInfo.t;
  entity_descriptions :
    gmap PassiveBluetoothEntityKey.t SensorEntityDescription.t;
  entity_names : gmap PassiveBluetoothEntityKey.t (option string);
  entity_data : gmap PassiveBluetoothEntityKey.t NativeValue;
}.

End PassiveBluetoothDataUpdate.

(** ** [sensor.py] *)

Abbreviation sensor_key := (SSDSensorDeviceClass.t * option Units.t)%type.

Definition SENSOR_DESCRIPTIONS : gmap sensor_key SensorEntityDescription.t :=
  <[ (SSDSensorDeviceClass.SIGNAL_STRENGTH,
      Some Units.SIGNAL_STRENGTH_DECIBELS_MILLIWATT) :=
       SensorEntityDescription.mk
         (SSDSensorDeviceClass.str SSDSensorDeviceClass.SIGNAL_STRENGTH ++ "_"
            ++ Units.str Units.SIGNAL_STRENGTH_DECIBELS_MILLIWATT)
         SensorDeviceClass.SIGNAL_STRENGTH
         (Units.str Units.SIGNAL_STRENGTH_DECIBELS_MILLIWATT)
         SensorStateClass.MEASUREMENT
         false
         (Some EntityCategory.DIAGNOSTIC) ]>
  (<[ (SSDSensorDeviceClass.BATTERY, Some Units.PERCENTAGE) :=
       SensorEntityDescription.mk
         (SSDSensorDeviceClass.str SSDSensorDeviceClass.BATTERY ++ "_"
            ++ Units.str Units.PERCENTAGE)
         SensorDeviceClass.BATTERY
         PERCENTAGE
         SensorStateClass.MEASUREMENT
         true
         None ]>
  (<[ (SSDSensorDeviceClass.TEMPERATURE, Some Units.TEMP_CELSIUS) :=
       SensorEntityDescription.mk
         (SSDSensorDeviceClass.str SSDSensorDeviceClass.TEMPERATURE ++ "_"
            ++ Units.str Units.TEMP_CELSIUS)
         SensorDeviceClass.TEMPERATURE
         UnitOfTemperature.CELSIUS
         SensorStateClass.MEASUREMENT
         true
         None ]> ∅)).

(** Convert a device key to an entity key. *)
Definition _device_key_to_bluetooth_entity_key (device_key : DeviceKey.t)
  : PassiveBluetoothEntityKey.t :=
  PassiveBluetoothEntityKey.mk
    (DeviceKey.key device_key) (DeviceKey.device_id device_key).

Definition _to_sensor_key (description : SensorDescription.t)
  : result sensor_key :=
  match SensorDescription.device_class description with
  | None => Raise AssertionError
  | Some device_class =>
      Ok (device_class, SensorDescription.native_unit_of_measurement description)
  end.

(** Convert a [sensor_state_data] sensor device info to a HA device info. *)
Definition sensor_device_info_to_hass_device_info
    (sensor_device_info : SensorDeviceInfo.t) (device_id : option string)
  : DeviceInfo.t :=
  let device_info := DeviceInfo.empty in
  let device_info :=
    match SensorDeviceInfo.name sensor_device_info with
    | Some n => DeviceInfo.set_name (Some n) device_info
    | None => device_info
    end in
  let device_info :=
    match SensorDeviceInfo.manufacturer sensor_device_info with
    | Some m => DeviceInfo.set_manufacturer m device_info
    | None => device_info
    end in
  let device_info :=
    match SensorDeviceInfo.model sensor_device_info with
    | Some m => DeviceInfo.set_model m device_info
    | None => device_info
    end in
  let device_info :=
    match SensorDeviceInfo.sw_version sensor_device_info with
    | Some v => DeviceInfo.set_sw_version v device_info
    | None => device_info
    end in
  DeviceInfo.set_identifiers ({[ id_str DOMAIN; id_of device_id ]}) device_info.

(** The dictionary comprehension [{fk k: fv k v for k, v in m.items()}]:
    the items are visited one by one and stored under the computed key. *)
Definition dict_comp {K1 K2 A B : Type} `{Countable K1} `{Countable K2}
    (fk : K1 → K2) (fv : K1 → A → B) (m : gmap K1 A) : gmap K2 B :=
  map_fold (λ k v acc, <[fk k := fv k v]> acc) ∅ m.

(** One item of the [entity_descriptions] comprehension: the filter
    [_to_sensor_key(description) in SENSOR_DESCRIPTIONS] runs first (and
    raises when the description has no device class); an item that passes
    is stored under its entity key. *)
Definition entity_descriptions_step
    (device_key : DeviceKey.t) (description : SensorDescription.t)
    (acc : result (gmap PassiveBluetoothEntityKey.t SensorEntityDescription.t))
  : result (gmap PassiveBluetoothEntityKey.t SensorEntityDescription.t) :=
  let* acc := acc in
  let* sensor_key := _to_sensor_key description in
  match SENSOR_DESCRIPTIONS !! sensor_key with
  | Some d => Ok (<[_device_key_to_bluetooth_entity_key device_key := d]> acc)
  | None => Ok acc
  end.

Definition entity_descriptions_comp
    (m : gmap DeviceKey.t SensorDescription.t)
  : result (gmap PassiveBluetoothEntityKey.t SensorEntityDescription.t) :=
  map_fold entity_descriptions_step (Ok ∅) m.

(** Convert a sensor update to a bluetooth data update. *)
Definition sensor_update_to_bluetooth_data_update (sensor_update : SensorUpdate.t)
  : result PassiveBluetoothDataUpdate.t :=
  let devices :=
    dict_comp (λ device_id, device_id)
      (λ device_id device_info,
         sensor_device_info_to_hass_device_info device_info device_id)
      (SensorUpdate.devices sensor_update) in
  let* entity_descriptions :=
    entity_descriptions_comp (SensorUpdate.entity_descriptions sensor_update) in
  let entity_data :=
    dict_comp _device_key_to_bluetooth_entity_key
      (λ _ sensor_values, SensorValue.native_value sensor_values)
      (SensorUpdate.entity_values sensor_update) in
  let entity_names :=
    dict_comp _device_key_to_bluetooth_entity_key
      (λ _ sensor_values, SensorValue.name sensor_values)
      (SensorUpdate.entity_values sensor_update) in
  Ok (PassiveBluetoothDataUpdate.mk
        devices entity_descriptions entity_names entity_data).

(** The attributes of a sensor entity.  [processor_entity_data] is the
    [entity_data] of the processor the entity reads from. *)
Module FeverSmartBluetoothSensorEntity.

Record t := mk {
  entity_key : PassiveBluetoothEntityKey.t;
  entity_description : SensorEntityDescription.t;
  processor_entity_data : gmap PassiveBluetoothEntityKey.t NativeValue;
  _attr_device_info : DeviceInfo.t;
  _attr_unique_id : option string;
}.

(** Create the entity.  [super__init__] is the constructor of the parent
    class [PassiveBluetoothProcessorEntity], which belongs to the host
    framework: whatever it stores in the two attributes is overwritten. *)
Definition __init__
    (super__init__ : gmap PassiveBluetoothEntityKey.t NativeValue →
                     PassiveBluetoothEntityKey.t →
                     SensorEntityDescription.t → t)
    (processor : gmap PassiveBluetoothEntityKey.t NativeValue)
    (entity_key : PassiveBluetoothEntityKey.t)
    (description : SensorEntityDescription.t) : t :=
  let self := super__init__ processor entity_key description in
  let device_id := PassiveBluetoothEntityKey.device_id entity_key in
  let key := PassiveBluetoothEntityKey.key entity_key in
  let device_info :=
    DeviceInfo.set_identifiers {[ id_tuple DOMAIN (fstr device_id) ]}
      DeviceInfo.empty in
  let unique_id := fstr device_id ++ "-" ++ key in
  let device_info :=
    match DeviceInfo.ATTR_NAME device_info with
    | None => DeviceInfo.set_name device_id device_info
    | Some _ => device_info
    end in
  mk (FeverSmartBluetoothSensorEntity.entity_key self)
     (FeverSmartBluetoothSensorEntity.entity_description self)
     (FeverSmartBluetoothSensorEntity.processor_entity_data self)
     device_info (Some unique_id).

(** The [native_value] property. *)
Definition native_value (self : t) : option NativeValue :=
  processor_entity_data self !! entity_key self.

End FeverSmartBluetoothSensorEntity.

(** ** Host-framework state shared by the coordinator and the config flow *)

Module BluetoothServiceInfo.

Record t := mk {
  name : string;
  address : string;
  manufacturer_data : gmap Z (list Byte.byte);
  connectable : bool;
}.

End BluetoothServiceInfo.

Module BluetoothScanningMode.
Inductive t := PASSIVE | ACTIVE.
End BluetoothScanningMode.

(** The [BluetoothCallbackMatcher] typed dictionary; an absent key is
    [None]. *)
Module BluetoothCallbackMatcher.

Record t := mk {
  address : option string;
  manufacturer_id : option Z;
  connectable : option bool;
}.

End BluetoothCallbackMatcher.

(** A registered advertisement callback: the name of the bound method of
    the coordinator, the matcher and the scanning mode. *)
Record callback_registration := {
  reg_callback : string;
  reg_matcher : BluetoothCallbackMatcher.t;
  reg_mode : BluetoothScanningMode.t;
}.

(** A registered unavailability tracker. *)
Record unavailable_tracker := {
  trk_callback : string;
  trk_address : string;
  trk_connectable : bool;
}.

(** What the registration functions return: a handle that cancels the
    registration with the given index. *)
Inductive cancel :=
  | cancel_callback (index : nat)
  | cancel_unavailable (index : nat).

Module ConfigEntry.

Record t := mk {
  entry_id : string;
  unique_id : option string;
  title : string;
  data : gmap string string;
}.

End ConfigEntry.

Module HomeAssistant.

Record t := mk {
  bluetooth_callbacks : list callback_registration;
  unavailable_trackers : list unavailable_tracker;
  discovered_service_info : list BluetoothServiceInfo.t;
  config_entries : gmap string ConfigEntry.t;
  tasks : list string;
}.

End HomeAssistant.

(** Modelled from the spec: [async_register_callback] belongs to the host
    framework's Bluetooth component, which is not among the sources.  It
    records the callback with its matcher and mode and returns the handle
    that cancels it. *)
Definition async_register_callback (hass : HomeAssistant.t)
    (callback : string) (matcher : BluetoothCallbackMatcher.t)
    (mode : BluetoothScanningMode.t) : cancel * HomeAssistant.t :=
  (cancel_callback (length (HomeAssistant.bluetooth_callbacks hass)),
   HomeAssistant.mk
     (HomeAssistant.bluetooth_callbacks hass
        ++ [ {| reg_callback := callback; reg_matcher := matcher;
                reg_mode := mode |} ])
     (HomeAssistant.unavailable_trackers hass)
     (HomeAssistant.discovered_service_info hass)
     (HomeAssistant.config_entries hass)
     (HomeAssistant.tasks hass)).

(** Modelled from the spec: [async_track_unavailable] of the host
    framework, in the same way. *)
Definition async_track_unavailable (hass : HomeAssistant.t)
    (callback : string) (address : string) (connectable : bool)
  : cancel * HomeAssistant.t :=
  (cancel_unavailable (length (HomeAssistant.unavailable_trackers hass)),
   HomeAssistant.mk
     (HomeAssistant.bluetooth_callbacks hass)
     (HomeAssistant.unavailable_trackers hass
        ++ [ {| trk_callback := callback; trk_address := address;
                trk_connectable := connectable |} ])
     (HomeAssistant.discovered_service_info hass)
     (HomeAssistant.config_entries hass)
     (HomeAssistant.tasks hass)).

(** Modelled from the spec: the host framework filters advertisement
    events with the matcher of a registration.  Every key the matcher
    holds restricts the advertisements it accepts: the address must be
    equal, data of the manufacturer ID must be present, and a matcher for
    connectable devices accepts only connectable advertisements. *)
Definition ble_device_matches (matcher : BluetoothCallbackMatcher.t)
    (service_info : BluetoothServiceInfo.t) : bool :=
  match BluetoothCallbackMatcher.address matcher with
  | Some a => bool_decide (BluetoothServiceInfo.address service_info = a)
  | None => true
  end
  && match BluetoothCallbackMatcher.manufacturer_id matcher with
     | Some m =>
         bool_decide
           (m ∈ dom (BluetoothServiceInfo.manufacturer_data service_info))
     | None => true
     end
  && match BluetoothCallbackMatcher.connectable matcher with
     | Some false => true
     | _ => BluetoothServiceInfo.connectable service_info
     end.

(** Modelled from the spec: the bound methods that the framework calls for
    an advertisement, one per registration whose matcher accepts it. *)
Definition dispatch (hass : HomeAssistant.t)
    (service_info : BluetoothServiceInfo.t) : list string :=
  reg_callback <$>
    filter (λ r, ble_device_matches (reg_matcher r) service_info = true)
      (HomeAssistant.bluetooth_callbacks hass).

(** ** [coordinator.py] *)

(** Instance attributes of a coordinator, as the parent constructor sets
    them. *)
Module PassiveBluetoothProcessorCoordinator.

Record t := mk {
  address : string;
  mode : BluetoothScanningMode.t;
  connectable : bool;
  _on_stop : list cancel;
}.

End PassiveBluetoothProcessorCoordinator.



Module FeverSmartPassiveBluetoothProcessorCoordinator.

(** Initialize the coordinator: the arguments go to the parent constructor
    [super__init__]; [connectable] defaults to [False]. *)
Definition __init__
    (super__init__ : string → BluetoothScanningMode.t → bool →
                     PassiveBluetoothProcessorCoordinator.t)
    (address : string) (mode : BluetoothScanningMode.t)
    (connectable : option bool) : PassiveBluetoothProcessorCoordinator.t :=
  super__init__ address mode (default false connectable).

(** Start the callbacks. *)
Definition _async_start (self : PassiveBluetoothProcessorCoordinator.t)
    (hass : HomeAssistant.t)
  : PassiveBluetoothProcessorCoordinator.t * HomeAssistant.t :=
  let '(c1, hass) :=
    async_register_callback hass "_async_handle_bluetooth_event"
      (BluetoothCallbackMatcher.mk None (Some 8199%Z) (Some false))
      (PassiveBluetoothProcessorCoordinator.mode self) in
  let self :=
    PassiveBluetoothProcessorCoordinator.mk
      (PassiveBluetoothProcessorCoordinator.address self)
      (PassiveBluetoothProcessorCoordinator.mode self)
      (PassiveBluetoothProcessorCoordinator.connectable self)
      (PassiveBluetoothProcessorCoordinator._on_stop self ++ [c1]) in
  let '(c2, hass) :=
    async_track_unavailable hass "_async_handle_unavailable"
      (PassiveBluetoothProcessorCoordinator.address self)
      (PassiveBluetoothProcessorCoordinator.connectable self) in
  let self :=
    PassiveBluetoothProcessorCoordinator.mk
      (PassiveBluetoothProcessorCoordinator.address self)
      (PassiveBluetoothProcessorCoordinator.mode self)
      (PassiveBluetoothProcessorCoordinator.connectable self)
      (PassiveBluetoothProcessorCoordinator._on_stop self ++ [c2]) in
  (self, hass).


End FeverSmartPassiveBluetoothProcessorCoordinator.





(** ** [config_flow.py] *)

(** The state of a [FeverSmartAdvParser] after [supported] ran: the
    attributes the flow reads, with [device_name] the value of
    [get_device_name()]. *)
Module FeverSmartAdvParser.

Record t := mk {
  primary_device_id : option string;
  title : option string;
  device_name : option string;
}.

End FeverSmartAdvParser.

(** The parser library: [supported] on a fresh parser returns the parser's
    state after the call and whether the advertisement is supported. *)
Class pyfeversmart := {
  supported : BluetoothServiceInfo.t → FeverSmartAdvParser.t * bool;
}.

(** Python's [a or b or c] on two optional strings and a string: the first
    operand that is neither [None] nor empty, else the last one. *)
Definition truthy (x : option string) : bool :=
  match x with
  | Some s => negb (String.eqb s "")
  | None => false
  end.

Definition or_else (a b : option string) (c : string) : string :=
  if truthy a then fstr a else if truthy b then fstr b else c.

(** The form schemas of the two steps. *)
Inductive data_schema :=
  | key_schema
  | address_schema (choices : gmap string string).

Inductive FlowResult :=
  | abort (reason : string)
  | show_form (step_id : string) (schema : data_schema)
      (description_placeholders : option string)
  | create_entry (title : string) (data : gmap string string).

Definition CONF_ADDRESS : string := "address".

Module ConfigFlow.

(** The attributes of the flow and the entries of [self.context] it uses. *)
Record t := mk {
  _discovery_info : option BluetoothServiceInfo.t;
  _discovered_device : option FeverSmartAdvParser.t;
  _discovered_devices : gmap string string;
  unique_id : option string;
  title_placeholders : option string;
  entry_id : option string;
}.

(** Initialize the config flow, in a context with the given entry ID. *)
Definition __init__ (entry_id : option string) : t :=
  mk None None ∅ None None entry_id.

Definition with_unique_id (v : option string) (self : t) : t :=
  mk (_discovery_info self) (_discovered_device self)
     (_discovered_devices self) v (title_placeholders self) (entry_id self).

Definition with_title_placeholders (v : string) (self : t) : t :=
  mk (_discovery_info self) (_discovered_device self)
     (_discovered_devices self) (unique_id self) (Some v) (entry_id self).

Definition with_discovery (info : BluetoothServiceInfo.t)
    (device : FeverSmartAdvParser.t) (self : t) : t :=
  mk (Some info) (Some device) (_discovered_devices self) (unique_id self)
     (title_placeholders self) (entry_id self).

Definition with_discovered_devices (v : gmap string string) (self : t) : t :=
  mk (_discovery_info self) (_discovered_device self) v (unique_id self)
     (title_placeholders self) (entry_id self).

(** Modelled from the spec: [async_set_unique_id] of the host framework
    records the unique ID of the flow. *)
Definition async_set_unique_id (v : option string) (self : t) : t :=
  with_unique_id v self.

(** Modelled from the spec: the unique IDs of the configured entries
    ([_async_current_ids] of the host framework). *)
Definition _async_current_ids (hass : HomeAssistant.t) : gset string :=
  map_to_set (λ _ e, default "" (ConfigEntry.unique_id e))
    (filter (λ p, is_Some (ConfigEntry.unique_id p.2))
       (HomeAssistant.config_entries hass)).

(** Modelled from the spec: [_abort_if_unique_id_configured] of the host
    framework ends the flow when an entry with the unique ID of the flow is
    configured. *)
Definition _abort_if_unique_id_configured (self : t) (hass : HomeAssistant.t)
  : result unit :=
  match unique_id self with
  | Some u =>
      if decide (u ∈ _async_current_ids hass)
      then Raise (AbortFlow "already_configured")
      else Ok ()
  | None => Ok ()
  end.

Definition step_result : Type := result FlowResult * t * HomeAssistant.t.

Definition _async_get_or_create_entry (self : t) (hass : HomeAssistant.t)
    (key : option string) : step_result :=
  let data : gmap string string :=
    if truthy key then {[ "key" := fstr key ]} else ∅ in
  if truthy (entry_id self) then
    match HomeAssistant.config_entries hass !! fstr (entry_id self) with
    | None => (Raise AssertionError, self, hass)
    | Some entry =>
        let entry :=
          ConfigEntry.mk (ConfigEntry.entry_id entry)
            (ConfigEntry.unique_id entry) (ConfigEntry.title entry) data in
        let hass :=
          HomeAssistant.mk
            (HomeAssistant.bluetooth_callbacks hass)
            (HomeAssistant.unavailable_trackers hass)
            (HomeAssistant.discovered_service_info hass)
            (<[fstr (entry_id self) := entry]>
               (HomeAssistant.config_entries hass))
            (HomeAssistant.tasks hass ++ [ConfigEntry.entry_id entry]) in
        (Ok (abort "reauth_successful"), self, hass)
    end
  else
    match title_placeholders self with
    | None => (Raise KeyError, self, hass)
    | Some name => (Ok (create_entry name data), self, hass)
    end.

(** Confirm discovery. *)
Definition async_step_bluetooth_confirm (self : t) (hass : HomeAssistant.t)
    (user_input : option (gmap string string)) : step_result :=
  match _discovered_device self with
  | None => (Raise AssertionError, self, hass)
  | Some device =>
      match _discovery_info self with
      | None => (Raise AssertionError, self, hass)
      | Some discovery_info =>
          match user_input with
          | Some user_input =>
              match user_input !! "key" with
              | None => (Raise KeyError, self, hass)
              | Some key => _async_get_or_create_entry self hass (Some key)
              end
          | None =>
              let title :=
                or_else (FeverSmartAdvParser.title device)
                  (FeverSmartAdvParser.device_name device)
                  (BluetoothServiceInfo.name discovery_info) in
              let self := with_title_placeholders title self in
              (Ok (show_form "bluetooth_confirm" key_schema (Some title)),
               self, hass)
          end
      end
  end.

(** Handle the bluetooth discovery step. *)
Definition async_step_bluetooth {lib : pyfeversmart} (self : t)
    (hass : HomeAssistant.t) (discovery_info : BluetoothServiceInfo.t)
  : step_result :=
  let '(device, ok) := supported discovery_info in
  if negb ok then (Ok (abort "not_supported"), self, hass)
  else
    let self :=
      async_set_unique_id (FeverSmartAdvParser.primary_device_id device) self in
    match _abort_if_unique_id_configured self hass with
    | Raise e => (Raise e, self, hass)
    | Ok _ =>
        let self := with_discovery discovery_info device self in
        async_step_bluetooth_confirm self hass None
    end.

(** One round of the scan loop of the user step. *)
Definition scan_step {lib : pyfeversmart} (current_addresses : gset string)
    (discovered : gmap string string) (discovery_info : BluetoothServiceInfo.t)
  : gmap string string :=
  let address := BluetoothServiceInfo.address discovery_info in
  if decide (address ∈ current_addresses ∨ address ∈ dom discovered)
  then discovered
  else
    let '(device, ok) := supported discovery_info in
    if ok then
      <[address :=
          or_else (FeverSmartAdvParser.title device)
            (FeverSmartAdvParser.device_name device)
            (BluetoothServiceInfo.name discovery_info)]> discovered
    else discovered.

(** Handle the user step to pick discovered device. *)
Definition async_step_user {lib : pyfeversmart} (self : t) (hass : HomeAssistant.t)
    (user_input : option (gmap string string)) : step_result :=
  match user_input with
  | Some user_input =>
      match user_input !! CONF_ADDRESS with
      | None => (Raise KeyError, self, hass)
      | Some address =>
          let self := async_set_unique_id (Some address) self in
          match _abort_if_unique_id_configured self hass with
          | Raise e => (Raise e, self, hass)
          | Ok _ =>
              match _discovered_devices self !! address with
              | None => (Raise KeyError, self, hass)
              | Some name =>
                  let self := with_title_placeholders name self in
                  _async_get_or_create_entry self hass (Some "0m0d3s2c")
              end
          end
      end
  | None =>
      let current_addresses := _async_current_ids hass in
      let discovered :=
        foldl (scan_step current_addresses) (_discovered_devices self)
          (HomeAssistant.discovered_service_info hass) in
      let self := with_discovered_devices discovered self in
      if decide (discovered = ∅)
      then (Ok (abort "no_devices_found"), self, hass)
      else (Ok (show_form "user" (address_schema discovered) None), self, hass)
  end.

(** Modelled from the spec: the flow manager of the host framework ends
    the flow with the reason of an [AbortFlow] that a step raises. *)
Definition flow_result (r : result FlowResult) : result FlowResult :=
  match r with
  | Raise (AbortFlow reason) => Ok (abort reason)
  | r => r
  end.

(** The decryption key an entry holds. *)
Definition stored_key (data : gmap string string) : option string :=
  data !! "key".

End ConfigFlow.

(** What the [entity_descriptions] comprehension stores for a description:
    the entry of [SENSOR_DESCRIPTIONS] under its sensor key, if any. *)
Definition description_entry (d : SensorDescription.t)
  : option SensorEntityDescription.t :=
  match SensorDescription.device_class d with
  | Some c =>
      SENSOR_DESCRIPTIONS !! (c, SensorDescription.native_unit_of_measurement d)
  | None => None
  end.

(** ** Concrete inputs *)

Module Samples.

Definition k_temp : DeviceKey.t := DeviceKey.mk "temperature" None.
Definition k_batt : DeviceKey.t := DeviceKey.mk "battery" (Some "dev1").
Definition k_volt : DeviceKey.t := DeviceKey.mk "voltage" None.

Definition d_temp : SensorDescription.t :=
  SensorDescription.mk k_temp (Some SSDSensorDeviceClass.TEMPERATURE)
    (Some Units.TEMP_CELSIUS).
Definition d_batt : SensorDescription.t :=
  SensorDescription.mk k_batt (Some SSDSensorDeviceClass.BATTERY)
    (Some Units.PERCENTAGE).
Definition d_volt : SensorDescription.t :=
  SensorDescription.mk k_volt (Some (SSDSensorDeviceClass.other "voltage"))
    (Some (Units.other "V")).
Definition d_no_class : SensorDescription.t :=
  SensorDescription.mk k_volt None (Some (Units.other "V")).

Definition v_temp : SensorValue.t :=
  SensorValue.mk k_temp (Some "Temperature") (IntValue 37).
Definition v_batt : SensorValue.t :=
  SensorValue.mk k_batt (Some "Battery") (IntValue 80).

Definition info : SensorDeviceInfo.t :=
  SensorDeviceInfo.mk (Some "Fever Smart") None (Some "Nurofen") None None.

(** An update with a temperature, a battery and a voltage description. *)
Definition update : SensorUpdate.t :=
  SensorUpdate.mk None
    (<[None := info]> ∅)
    (<[k_volt := d_volt]> (<[k_batt := d_batt]> (<[k_temp := d_temp]> ∅)))
    (<[k_batt := v_batt]> (<[k_temp := v_temp]> ∅)).

(** An update one of whose descriptions has no device class. *)
Definition update_without_device_class : SensorUpdate.t :=
  SensorUpdate.mk None
    (<[None := info]> ∅)
    (<[k_volt := d_no_class]> (<[k_temp := d_temp]> ∅))
    (<[k_temp := v_temp]> ∅).

(** A parser that supports the advertisements carrying data of the
    manufacturer 8199 and names the device by its address. *)
Definition parser : pyfeversmart := {|
  supported service_info :=
    (FeverSmartAdvParser.mk
       (Some (BluetoothServiceInfo.address service_info))
       (Some "Fever Smart") None,
     bool_decide
       (8199%Z ∈ dom (BluetoothServiceInfo.manufacturer_data service_info)))
|}.

Definition adv_fever : BluetoothServiceInfo.t :=
  BluetoothServiceInfo.mk "FS" "AA:BB" (<[8199%Z := []]> ∅) false.

Definition adv_other : BluetoothServiceInfo.t :=
  BluetoothServiceInfo.mk "Beacon" "CC:DD" (<[76%Z := []]> ∅) false.

(** A hub without entries that has seen both advertisements. *)
Definition hass : HomeAssistant.t :=
  HomeAssistant.mk [] [] [adv_fever; adv_other] ∅ [].

(** The same hub once the device at [AA:BB] is configured. *)
Definition hass_configured : HomeAssistant.t :=
  HomeAssistant.mk [] [] [adv_fever; adv_other]
    (<["e1" := ConfigEntry.mk "e1" (Some "AA:BB") "Fever Smart" ∅]> ∅) [].

(** A new flow, and the same flow once the user step has shown its form. *)
Definition flow : ConfigFlow.t := ConfigFlow.__init__ None.

Definition flow_after_scan : ConfigFlow.t :=
  (ConfigFlow.async_step_user (lib := parser) flow hass None).1.2.

(** A flow the discovery step has handed to the confirm step. *)
Definition flow_discovered : ConfigFlow.t :=
  (ConfigFlow.async_step_bluetooth (lib := parser) flow hass adv_fever).1.2.

Definition coordinator : PassiveBluetoothProcessorCoordinator.t :=
  PassiveBluetoothProcessorCoordinator.mk "AA:BB"
    BluetoothScanningMode.PASSIVE false [].

Definition entity_super__init__
    (processor : gmap PassiveBluetoothEntityKey.t NativeValue)
    (entity_key : PassiveBluetoothEntityKey.t)
    (description : SensorEntityDescription.t)
  : FeverSmartBluetoothSensorEntity.t :=
  FeverSmartBluetoothSensorEntity.mk entity_key description processor
    DeviceInfo.empty None.

Definition description : SensorEntityDescription.t :=
  SensorEntityDescription.mk "temperature_°C" SensorDeviceClass.TEMPERATURE
    UnitOfTemperature.CELSIUS SensorStateClass.MEASUREMENT true None.

End Samples.

(** ** Predicates and inputs for the further properties *)

(** Whether a string holds the separator ["-"] of the unique ID. *)
Fixpoint has_dash (s : string) : bool :=
  match s with
  | "" => false
  | String a s => if Ascii.eqb a (Ascii.ascii_of_nat 45) then true else has_dash s
  end.

Module MoreSamples.

(** A flow started to update the entry ["e1"]. *)
Definition flow_reauth : ConfigFlow.t := ConfigFlow.__init__ (Some "e1").

(** A hub with two entries, the first of which holds an old key. *)
Definition hass_two_entries : HomeAssistant.t :=
  HomeAssistant.mk [] [] [Samples.adv_fever]
    (<["e2" := ConfigEntry.mk "e2" (Some "EE:FF") "Other" ∅]>
       (<["e1" := ConfigEntry.mk "e1" (Some "AA:BB") "Fever Smart"
                    {[ "key" := "old"; "stale" := "x" ]}]> ∅))
    [].

(** An advertisement the parser supports, seen twice under two names. *)
Definition adv_fever_renamed : BluetoothServiceInfo.t :=
  BluetoothServiceInfo.mk "FS2" "AA:BB" (<[8199%Z := []]> ∅) true.

(** A parser that reports no title, so that the names of the advertisements
    show. *)
Definition parser_without_title : pyfeversmart := {|
  supported service_info :=
    (FeverSmartAdvParser.mk
       (Some (BluetoothServiceInfo.address service_info)) None (Some ""),
     bool_decide
       (8199%Z ∈ dom (BluetoothServiceInfo.manufacturer_data service_info)))
|}.

(** A connectable coordinator for another device. *)
Definition coordinator_other : PassiveBluetoothProcessorCoordinator.t :=
  PassiveBluetoothProcessorCoordinator.mk "11:22"
    BluetoothScanningMode.ACTIVE true [].

Definition hass_seen_twice : HomeAssistant.t :=
  HomeAssistant.mk [] [] [Samples.adv_fever; adv_fever_renamed] ∅ [].





End MoreSamples.

(** * Properties *)

(** ** Dictionary comprehensions *)

#[global] Instance _device_key_to_bluetooth_entity_key_inj :
  Inj (=) (=) _device_key_to_bluetooth_entity_key.
Proof. intros [k1 d1] [k2 d2] Heq. by inversion Heq. Qed.

Lemma _device_key_to_bluetooth_entity_key_surj (j : PassiveBluetoothEntityKey.t) :
  ∃ k, _device_key_to_bluetooth_entity_key k = j.
Proof. destruct j as [k d]. by exists (DeviceKey.mk k d). Qed.

Section dict_comp.
Context {K1 K2 A B : Type} `{Countable K1} `{Countable K2}.
Context (fk : K1 → K2) (fv : K1 → A → B) `{!Inj (=) (=) fk}.

(** With an injective key function no two items collide, so the result
    holds exactly the images of the items. *)
Lemma lookup_dict_comp_Some (m : gmap K1 A) (j : K2) (b : B) :
  dict_comp fk fv m !! j = Some b
  ↔ ∃ k v, fk k = j ∧ m !! k = Some v ∧ b = fv k v.
Proof.
  unfold dict_comp. revert j b.
  apply (map_fold_weak_ind
    (λ (r : gmap K2 B) (m : gmap K1 A), ∀ j b,
       r !! j = Some b ↔ ∃ k v, fk k = j ∧ m !! k = Some v ∧ b = fv k v)).
  - intros j b. rewrite lookup_empty. split; [done|].
    intros (k & v & _ & Hk & _). by rewrite lookup_empty in Hk.
  - intros i x m' r Hi IH j b.
    destruct (decide (fk i = j)) as [<-|Hne].
    + rewrite lookup_insert_eq. split.
      * intros [= <-]. exists i, x. by rewrite lookup_insert_eq.
      * intros (k & v & Hk & Hl & ->). apply (inj fk) in Hk as ->.
        rewrite lookup_insert_eq in Hl. by inversion Hl.
    + rewrite lookup_insert_ne by done. rewrite IH. split.
      * intros (k & v & Hk & Hl & ->). exists k, v.
        rewrite lookup_insert_ne; [done|]. intros ->. congruence.
      * intros (k & v & Hk & Hl & ->). exists k, v.
        rewrite lookup_insert_ne in Hl; [done|]. intros ->. done.
Qed.

Lemma lookup_dict_comp (m : gmap K1 A) (k : K1) :
  dict_comp fk fv m !! fk k = fv k <$> m !! k.
Proof.
  destruct (m !! k) as [v|] eqn:Hk; simpl.
  - apply lookup_dict_comp_Some. by exists k, v.
  - apply eq_None_not_Some. intros [b Hb].
    apply lookup_dict_comp_Some in Hb as (k' & v & Hk' & Hl & _).
    apply (inj fk) in Hk' as ->. congruence.
Qed.

Lemma dom_dict_comp (m : gmap K1 A) :
  dom (dict_comp fk fv m) = set_map fk (dom m).
Proof.
  apply set_eq. intros j. rewrite elem_of_dom, elem_of_map. split.
  - intros [b Hb]. apply lookup_dict_comp_Some in Hb as (k & v & <- & Hl & _).
    exists k. split; [done|]. apply elem_of_dom. by exists v.
  - intros (k & -> & Hk). apply elem_of_dom in Hk as [v Hv].
    exists (fv k v). apply lookup_dict_comp_Some. by exists k, v.
Qed.
End dict_comp.

(** ** The [entity_descriptions] comprehension *)

Lemma entity_descriptions_comp_spec (m : gmap DeviceKey.t SensorDescription.t) :
  match entity_descriptions_comp m with
  | Raise e =>
      e = AssertionError
      ∧ ∃ k d, m !! k = Some d ∧ SensorDescription.device_class d = None
  | Ok acc =>
      (∀ k d, m !! k = Some d → is_Some (SensorDescription.device_class d))
      ∧ ∀ k, acc !! _device_key_to_bluetooth_entity_key k
             = m !! k ≫= description_entry
  end.
Proof.
  unfold entity_descriptions_comp.
  apply (map_fold_weak_ind
    (λ r (m : gmap DeviceKey.t SensorDescription.t),
       match r with
       | Raise e =>
           e = AssertionError
           ∧ ∃ k d, m !! k = Some d ∧ SensorDescription.device_class d = None
       | Ok acc =>
           (∀ k d, m !! k = Some d →
                   is_Some (SensorDescription.device_class d))
           ∧ ∀ k, acc !! _device_key_to_bluetooth_entity_key k
                  = m !! k ≫= description_entry
       end)).
  - split; [intros k d; by rewrite lookup_empty|].
    intros k. by rewrite !lookup_empty.
  - intros i x m' r Hi IH. unfold entity_descriptions_step.
    destruct r as [acc|e]; simpl.
    + destruct IH as [Hall Hacc]. unfold _to_sensor_key.
      destruct (SensorDescription.device_class x) as [c|] eqn:Hc; simpl.
      * assert (Hall' : ∀ k d, <[i:=x]> m' !! k = Some d →
                  is_Some (SensorDescription.device_class d)).
        { intros k d. destruct (decide (i = k)) as [->|Hne].
          - rewrite lookup_insert_eq. intros [= <-]. by rewrite Hc.
          - rewrite lookup_insert_ne by done. apply Hall. }
        destruct (SENSOR_DESCRIPTIONS !! _) as [e|] eqn:He.
        -- split; [done|]. intros k.
           destruct (decide (i = k)) as [->|Hne].
           ++ rewrite !lookup_insert_eq. simpl. unfold description_entry.
              by rewrite Hc, He.
           ++ rewrite !lookup_insert_ne; [apply Hacc|done|].
              intros Heq. by apply (inj _) in Heq.
        -- split; [done|]. intros k.
           destruct (decide (i = k)) as [->|Hne].
           ++ rewrite lookup_insert_eq. simpl. unfold description_entry.
              rewrite Hc, He, Hacc, Hi. done.
           ++ rewrite lookup_insert_ne by done. apply Hacc.
      * split; [done|]. exists i, x. by rewrite lookup_insert_eq.
    + destruct IH as [-> (k & d & Hk & Hd)]. split; [done|].
      exists k, d. split; [|done].
      rewrite lookup_insert_ne; [done|]. intros ->. congruence.
Qed.

(** ** [sensor_update_to_bluetooth_data_update] *)


(** The translation succeeds exactly when every description has a device
    class; otherwise the assertion of [_to_sensor_key] fails. *)
Lemma sensor_update_to_bluetooth_data_update_raises (u : SensorUpdate.t) :
  (∃ k d, SensorUpdate.entity_descriptions u !! k = Some d
          ∧ SensorDescription.device_class d = None)
  → sensor_update_to_bluetooth_data_update u = Raise AssertionError.
Proof.
  intros (k & d & Hk & Hd). unfold sensor_update_to_bluetooth_data_update.
  pose proof (entity_descriptions_comp_spec (SensorUpdate.entity_descriptions u))
    as Hspec.
  destruct (entity_descriptions_comp _) as [acc|e]; simpl.
  - destruct Hspec as [Hall _]. apply Hall in Hk as [c Hc]. congruence.
  - by destruct Hspec as [-> _].
Qed.

Lemma sensor_update_to_bluetooth_data_update_Ok (u : SensorUpdate.t)
    (r : PassiveBluetoothDataUpdate.t) :
  sensor_update_to_bluetooth_data_update u = Ok r →
  (∀ k d, SensorUpdate.entity_descriptions u !! k = Some d →
          is_Some (SensorDescription.device_class d))
  ∧ (∀ device_id,
       PassiveBluetoothDataUpdate.devices r !! device_id
       = (λ device_info,
            sensor_device_info_to_hass_device_info device_info device_id)
         <$> SensorUpdate.devices u !! device_id)
  ∧ (∀ k, PassiveBluetoothDataUpdate.entity_descriptions r
            !! _device_key_to_bluetooth_entity_key k
          = SensorUpdate.entity_descriptions u !! k ≫= description_entry)
  ∧ (∀ k, PassiveBluetoothDataUpdate.entity_data r
            !! _device_key_to_bluetooth_entity_key k
          = SensorValue.native_value <$> SensorUpdate.entity_values u !! k)
  ∧ (∀ k, PassiveBluetoothDataUpdate.entity_names r
            !! _device_key_to_bluetooth_entity_key k
          = SensorValue.name <$> SensorUpdate.entity_values u !! k).
Proof.
  unfold sensor_update_to_bluetooth_data_update.
  pose proof (entity_descriptions_comp_spec (SensorUpdate.entity_descriptions u))
    as Hspec.
  destruct (entity_descriptions_comp _) as [acc|e]; simpl; [|done].
  intros [= <-]. simpl. destruct Hspec as [Hall Hacc].
  split; [done|]. split; [|split; [done|split]].
  - intros device_id.
    apply (lookup_dict_comp (λ device_id : option string, device_id)
             (λ device_id device_info,
                sensor_device_info_to_hass_device_info device_info device_id)).
  - intros k.
    apply (lookup_dict_comp _device_key_to_bluetooth_entity_key
             (λ _ sensor_values, SensorValue.native_value sensor_values)).
  - intros k.
    apply (lookup_dict_comp _device_key_to_bluetooth_entity_key
             (λ _ sensor_values, SensorValue.name sensor_values)).
Qed.

Lemma sensor_update_to_bluetooth_data_update_total (u : SensorUpdate.t) :
  (∀ k d, SensorUpdate.entity_descriptions u !! k = Some d →
          is_Some (SensorDescription.device_class d))
  → ∃ r, sensor_update_to_bluetooth_data_update u = Ok r.
Proof.
  intros Hall. unfold sensor_update_to_bluetooth_data_update.
  pose proof (entity_descriptions_comp_spec (SensorUpdate.entity_descriptions u))
    as Hspec.
  destruct (entity_descriptions_comp _) as [acc|e]; simpl; [by eexists|].
  destruct Hspec as [_ (k & d & Hk & Hd)]. apply Hall in Hk as [c Hc].
  congruence.
Qed.

(** C1, as amended.  For every sensor update all of whose entity
    descriptions have a device class, the translation returns an update
    whose [devices] has exactly the keys of the input's [devices], each
    value converted by [sensor_device_info_to_hass_device_info]; whose
    [entity_data] and [entity_names] hold, under each converted device key,
    the native value and the name of the corresponding sensor value; and
    whose [entity_descriptions] holds, under each converted device key, the
    entry of [SENSOR_DESCRIPTIONS] for exactly those descriptions whose
    (device class, unit) pair is one of its keys. *)
Theorem sensor_update_translation (u : SensorUpdate.t) :
  map_Forall (λ _ d, is_Some (SensorDescription.device_class d))
    (SensorUpdate.entity_descriptions u) →
  ∃ r, sensor_update_to_bluetooth_data_update u = Ok r
  ∧ dom (PassiveBluetoothDataUpdate.devices r) = dom (SensorUpdate.devices u)
  ∧ (∀ device_id,
       PassiveBluetoothDataUpdate.devices r !! device_id
       = (λ device_info,
            sensor_device_info_to_hass_device_info device_info device_id)
         <$> SensorUpdate.devices u !! device_id)
  ∧ (∀ k, PassiveBluetoothDataUpdate.entity_data r
            !! _device_key_to_bluetooth_entity_key k
          = SensorValue.native_value <$> SensorUpdate.entity_values u !! k)
  ∧ (∀ k, PassiveBluetoothDataUpdate.entity_names r
            !! _device_key_to_bluetooth_entity_key k
          = SensorValue.name <$> SensorUpdate.entity_values u !! k)
  ∧ (∀ k e, PassiveBluetoothDataUpdate.entity_descriptions r
              !! _device_key_to_bluetooth_entity_key k = Some e
            ↔ ∃ d c, SensorUpdate.entity_descriptions u !! k = Some d
                ∧ SensorDescription.device_class d = Some c
                ∧ SENSOR_DESCRIPTIONS
                    !! (c, SensorDescription.native_unit_of_measurement d)
                  = Some e).
Proof.
  intros Hall.
  destruct (sensor_update_to_bluetooth_data_update_total u) as [r Hr]; [done|].
  exists r. split; [done|].
  destruct (sensor_update_to_bluetooth_data_update_Ok u r Hr)
    as (_ & Hdev & Hdesc & Hdata & Hnames).
  split; [|split; [done|split; [done|split; [done|]]]].
  - apply set_eq. intros device_id. rewrite !elem_of_dom, Hdev.
    by rewrite fmap_is_Some.
  - intros k e. rewrite Hdesc.
    destruct (SensorUpdate.entity_descriptions u !! k) as [d|]; simpl.
    + unfold description_entry. split.
      * destruct (SensorDescription.device_class d) as [c|] eqn:Hc; [|done].
        intros He. by exists d, c.
      * intros (d' & c & [= <-] & Hc & He). by rewrite Hc.
    + split; [done|]. by intros (d & c & [=] & _).
Qed.

Lemma sensor_update_translation_witness :
  map_Forall (λ _ d, is_Some (SensorDescription.device_class d))
    (SensorUpdate.entity_descriptions Samples.update)
  ∧ ∃ r, sensor_update_to_bluetooth_data_update Samples.update = Ok r
      ∧ PassiveBluetoothDataUpdate.entity_data r
          !! _device_key_to_bluetooth_entity_key Samples.k_temp
        = Some (IntValue 37).
Proof.
  assert (H : map_Forall (λ _ d, is_Some (SensorDescription.device_class d))
                (SensorUpdate.entity_descriptions Samples.update)).
  { simpl. repeat (apply map_Forall_insert_2; [by eexists|]).
    apply map_Forall_empty. }
  split; [exact H|].
  destruct (sensor_update_translation Samples.update H)
    as (r & Hr & _ & _ & Hdata & _).
  exists r. split; [exact Hr|]. rewrite Hdata. reflexivity.
Defined.

(** C1 as stated fails: on an update that holds a description without a
    device class the assertion of [_to_sensor_key] fails and nothing is
    returned. *)
Lemma sensor_update_translation_not_total :
  sensor_update_to_bluetooth_data_update Samples.update_without_device_class
  = Raise AssertionError
  ∧ ¬ ∃ r, sensor_update_to_bluetooth_data_update
             Samples.update_without_device_class = Ok r.
Proof.
  assert (H : sensor_update_to_bluetooth_data_update
                Samples.update_without_device_class = Raise AssertionError)
    by (vm_compute; reflexivity).
  split; [exact H|]. intros [r Hr]. rewrite H in Hr. discriminate.
Qed.



(** C9.  In every translated update the [entity_data] and [entity_names]
    maps have the same key set, namely the entity keys of the input's
    [entity_values]: every reported value has a name entry and vice
    versa. *)
Theorem entity_data_names_same_keys (u : SensorUpdate.t)
    (r : PassiveBluetoothDataUpdate.t) :
  sensor_update_to_bluetooth_data_update u = Ok r →
  dom (PassiveBluetoothDataUpdate.entity_data r)
  = dom (PassiveBluetoothDataUpdate.entity_names r)
  ∧ dom (PassiveBluetoothDataUpdate.entity_data r)
    = set_map _device_key_to_bluetooth_entity_key
        (dom (SensorUpdate.entity_values u)).
Proof.
  unfold sensor_update_to_bluetooth_data_update.
  destruct (entity_descriptions_comp _) as [acc|e]; simpl; [|done].
  intros [= <-]. simpl.
  rewrite !(dom_dict_comp _device_key_to_bluetooth_entity_key);
    [done|apply _..].
Qed.

Lemma entity_data_names_same_keys_witness :
  ∃ r, sensor_update_to_bluetooth_data_update Samples.update = Ok r
     ∧ dom (PassiveBluetoothDataUpdate.entity_data r)
       = dom (PassiveBluetoothDataUpdate.entity_names r).
Proof.
  eexists. split; [reflexivity|].
  apply (entity_data_names_same_keys Samples.update). reflexivity.
Defined.

(** ** [FeverSmartBluetoothSensorEntity] *)

(** C5.  The unique ID of an entity is [f"{device_id}-{key}"], computed
    from the entity key alone: entities constructed from equal entity
    keys, by whatever parent constructor, processor and description,
    receive equal unique IDs. *)
Theorem unique_id_deterministic
    (super1 super2 : gmap PassiveBluetoothEntityKey.t NativeValue →
                     PassiveBluetoothEntityKey.t →
                     SensorEntityDescription.t →
                     FeverSmartBluetoothSensorEntity.t)
    (p1 p2 : gmap PassiveBluetoothEntityKey.t NativeValue)
    (k1 k2 : PassiveBluetoothEntityKey.t)
    (d1 d2 : SensorEntityDescription.t) :
  k1 = k2 →
  FeverSmartBluetoothSensorEntity._attr_unique_id
    (FeverSmartBluetoothSensorEntity.__init__ super1 p1 k1 d1)
  = Some (fstr (PassiveBluetoothEntityKey.device_id k1) ++ "-"
            ++ PassiveBluetoothEntityKey.key k1)
  ∧ FeverSmartBluetoothSensorEntity._attr_unique_id
      (FeverSmartBluetoothSensorEntity.__init__ super1 p1 k1 d1)
    = FeverSmartBluetoothSensorEntity._attr_unique_id
        (FeverSmartBluetoothSensorEntity.__init__ super2 p2 k2 d2).
Proof. intros <-. split; reflexivity. Qed.

Lemma unique_id_deterministic_witness :
  PassiveBluetoothEntityKey.mk "temperature" (Some "dev1")
  = PassiveBluetoothEntityKey.mk "temperature" (Some "dev1")
  ∧ FeverSmartBluetoothSensorEntity._attr_unique_id
      (FeverSmartBluetoothSensorEntity.__init__ Samples.entity_super__init__ ∅
         (PassiveBluetoothEntityKey.mk "temperature" (Some "dev1"))
         Samples.description)
    = Some "dev1-temperature".
Proof.
  split; [reflexivity|].
  exact (proj1 (unique_id_deterministic
                  Samples.entity_super__init__ Samples.entity_super__init__
                  ∅ ∅
                  (PassiveBluetoothEntityKey.mk "temperature" (Some "dev1"))
                  (PassiveBluetoothEntityKey.mk "temperature" (Some "dev1"))
                  Samples.description Samples.description eq_refl)).
Defined.

(** C8, on the code.  The identifier set that
    [sensor_device_info_to_hass_device_info] writes is the set of the two
    strings [DOMAIN] and [device_id]; the one the entity constructor builds
    is the set of the one pair [(DOMAIN, device_id)].  The two are
    different for every device ID. *)
Theorem identifier_sets_differ
    (sensor_device_info : SensorDeviceInfo.t)
    (super__init__ : gmap PassiveBluetoothEntityKey.t NativeValue →
                     PassiveBluetoothEntityKey.t →
                     SensorEntityDescription.t →
                     FeverSmartBluetoothSensorEntity.t)
    (processor : gmap PassiveBluetoothEntityKey.t NativeValue)
    (key : string) (device_id : option string)
    (description : SensorEntityDescription.t) :
  DeviceInfo.ATTR_IDENTIFIERS
    (sensor_device_info_to_hass_device_info sensor_device_info device_id)
  = Some {[ id_str DOMAIN; id_of device_id ]}
  ∧ DeviceInfo.ATTR_IDENTIFIERS
      (FeverSmartBluetoothSensorEntity._attr_device_info
         (FeverSmartBluetoothSensorEntity.__init__ super__init__ processor
            (PassiveBluetoothEntityKey.mk key device_id) description))
    = Some {[ id_tuple DOMAIN (fstr device_id) ]}
  ∧ DeviceInfo.ATTR_IDENTIFIERS
      (sensor_device_info_to_hass_device_info sensor_device_info device_id)
    ≠ DeviceInfo.ATTR_IDENTIFIERS
        (FeverSmartBluetoothSensorEntity._attr_device_info
           (FeverSmartBluetoothSensorEntity.__init__ super__init__ processor
              (PassiveBluetoothEntityKey.mk key device_id) description)).
Proof.
  assert (H1 : DeviceInfo.ATTR_IDENTIFIERS
                 (sensor_device_info_to_hass_device_info sensor_device_info
                    device_id)
               = Some {[ id_str DOMAIN; id_of device_id ]}).
  { unfold sensor_device_info_to_hass_device_info.
    by destruct sensor_device_info as [[?|] [?|] [?|] [?|] ?]. }
  split; [exact H1|]. split; [reflexivity|].
  rewrite H1. simpl. intros Heq. apply (inj Some) in Heq.
  assert (Hin : id_str DOMAIN ∈ ({[ id_tuple DOMAIN (fstr device_id) ]}
                                 : gset identifier)).
  { rewrite <- Heq. apply elem_of_union_l, elem_of_singleton. reflexivity. }
  apply elem_of_singleton in Hin. discriminate Hin.
Qed.

(** ** The coordinator *)

Lemma ble_device_matches_manufacturer (service_info : BluetoothServiceInfo.t) :
  ble_device_matches
    (BluetoothCallbackMatcher.mk None (Some 8199%Z) (Some false)) service_info
  = bool_decide
      (8199%Z ∈ dom (BluetoothServiceInfo.manufacturer_data service_info)).
Proof. unfold ble_device_matches. simpl. by rewrite andb_true_r. Qed.

Lemma _async_start_callbacks
    (self : PassiveBluetoothProcessorCoordinator.t) (hass : HomeAssistant.t) :
  HomeAssistant.bluetooth_callbacks
    (FeverSmartPassiveBluetoothProcessorCoordinator._async_start self hass).2
  = (HomeAssistant.bluetooth_callbacks hass
     ++ [ {| reg_callback := "_async_handle_bluetooth_event";
             reg_matcher :=
               BluetoothCallbackMatcher.mk None (Some 8199%Z) (Some false);
             reg_mode := PassiveBluetoothProcessorCoordinator.mode self |} ])%list.
Proof. reflexivity. Qed.

(** C2.  Starting the coordinator registers exactly one advertisement
    callback; its matcher names the manufacturer ID 8199 and
    [connectable=False] and nothing else, so it accepts an advertisement
    only if that carries data of manufacturer 8199; no registration for
    another manufacturer ID is added. *)
Theorem async_start_registers_manufacturer_8199
    (self : PassiveBluetoothProcessorCoordinator.t) (hass : HomeAssistant.t) :
  HomeAssistant.bluetooth_callbacks
    (FeverSmartPassiveBluetoothProcessorCoordinator._async_start self hass).2
  = (HomeAssistant.bluetooth_callbacks hass
     ++ [ {| reg_callback := "_async_handle_bluetooth_event";
             reg_matcher :=
               BluetoothCallbackMatcher.mk None (Some 8199%Z) (Some false);
             reg_mode := PassiveBluetoothProcessorCoordinator.mode self |} ])%list
  ∧ (∀ r,
       r ∈ HomeAssistant.bluetooth_callbacks
             (FeverSmartPassiveBluetoothProcessorCoordinator._async_start
                self hass).2 →
       r ∈ HomeAssistant.bluetooth_callbacks hass
       ∨ (BluetoothCallbackMatcher.manufacturer_id (reg_matcher r)
            = Some 8199%Z
          ∧ BluetoothCallbackMatcher.connectable (reg_matcher r) = Some false))
  ∧ (∀ service_info,
       ble_device_matches
         (BluetoothCallbackMatcher.mk None (Some 8199%Z) (Some false))
         service_info = true
       ↔ 8199%Z ∈ dom (BluetoothServiceInfo.manufacturer_data service_info)).
Proof.
  split; [apply _async_start_callbacks|]. split.
  - intros r. rewrite _async_start_callbacks, elem_of_app, list_elem_of_singleton.
    intros [Hr| ->]; [by left|by right].
  - intros service_info. rewrite ble_device_matches_manufacturer.
    apply bool_decide_eq_true.
Qed.

Lemma async_start_registers_manufacturer_8199_witness :
  dispatch
    (FeverSmartPassiveBluetoothProcessorCoordinator._async_start
       Samples.coordinator Samples.hass).2 Samples.adv_fever
  = ["_async_handle_bluetooth_event"]
  ∧ dispatch
      (FeverSmartPassiveBluetoothProcessorCoordinator._async_start
         Samples.coordinator Samples.hass).2 Samples.adv_other
    = []
  ∧ 8199%Z ∈ dom (BluetoothServiceInfo.manufacturer_data Samples.adv_fever).
Proof.
  split; [reflexivity|]. split; [reflexivity|].
  apply (proj2 (proj2 (async_start_registers_manufacturer_8199
                         Samples.coordinator Samples.hass))).
  reflexivity.
Defined.



(** ** The configuration flow *)

Lemma elem_of__async_current_ids (hass : HomeAssistant.t) (u : string) :
  u ∈ ConfigFlow._async_current_ids hass
  ↔ ∃ id e, HomeAssistant.config_entries hass !! id = Some e
            ∧ ConfigEntry.unique_id e = Some u.
Proof.
  unfold ConfigFlow._async_current_ids. rewrite elem_of_map_to_set. split.
  - intros (id & e & He & <-). apply map_lookup_filter_Some in He as [He Hu].
    simpl in Hu. destruct Hu as [u Hu]. exists id, e. by rewrite Hu.
  - intros (id & e & He & Hu). exists id, e. split; [|by rewrite Hu].
    apply map_lookup_filter_Some. split; [done|]. simpl. by rewrite Hu.
Qed.

(** What [_async_get_or_create_entry] stores: the key it is given, when
    that is not empty, in a new entry or in the entry of the context. *)
Lemma _async_get_or_create_entry_data
    (self self' : ConfigFlow.t) (hass hass' : HomeAssistant.t)
    (key : option string) (r : FlowResult) :
  ConfigFlow._async_get_or_create_entry self hass key = (Ok r, self', hass') →
  (∃ title,
     r = create_entry title
           (if truthy key then {[ "key" := fstr key ]} else ∅)
     ∧ hass' = hass)
  ∨ (r = abort "reauth_successful"
     ∧ ∃ e, HomeAssistant.config_entries hass'
              !! fstr (ConfigFlow.entry_id self) = Some e
          ∧ ConfigEntry.data e
            = if truthy key then {[ "key" := fstr key ]} else ∅).
Proof.
  unfold ConfigFlow._async_get_or_create_entry.
  destruct (truthy (ConfigFlow.entry_id self)).
  - destruct (HomeAssistant.config_entries hass !! _) as [e|]; [|done].
    intros [= <- <- <-]. right. split; [done|]. eexists. split.
    + simpl. apply lookup_insert_eq.
    + done.
  - destruct (ConfigFlow.title_placeholders self) as [name|]; [|done].
    intros [= <- <- <-]. left. by exists name.
Qed.

(** The confirm step of the discovery path stores the key of the user
    input. *)
Lemma async_step_bluetooth_confirm_stores_user_key
    (self self' : ConfigFlow.t) (hass hass' : HomeAssistant.t)
    (user_input : gmap string string) (title : string)
    (data : gmap string string) :
  ConfigFlow.async_step_bluetooth_confirm self hass (Some user_input)
  = (Ok (create_entry title data), self', hass') →
  ∀ k, ConfigFlow.stored_key data = Some k → user_input !! "key" = Some k.
Proof.
  unfold ConfigFlow.async_step_bluetooth_confirm.
  destruct (ConfigFlow._discovered_device self); [|done].
  destruct (ConfigFlow._discovery_info self); [|done].
  destruct (user_input !! "key") as [key|] eqn:Hkey; [|done].
  intros Hstep k.
  apply _async_get_or_create_entry_data in Hstep
    as [(title' & [= _ ->] & _)|([=] & _)].
  unfold ConfigFlow.stored_key. simpl. destruct (negb _).
  - rewrite lookup_singleton_eq. by intros [= <-].
  - by rewrite lookup_empty.
Qed.

(** C4, on the code.  Whatever the user enters in the user step, an entry
    that the step creates or updates holds the fixed key ["0m0d3s2c"]: the
    user is not asked for a key on this path. *)
Theorem async_step_user_stores_fixed_key {lib : pyfeversmart}
    (self self' : ConfigFlow.t) (hass hass' : HomeAssistant.t)
    (user_input : gmap string string) (r : FlowResult) :
  ConfigFlow.async_step_user self hass (Some user_input) = (Ok r, self', hass') →
  (∃ title, r = create_entry title {[ "key" := "0m0d3s2c" ]})
  ∨ (r = abort "reauth_successful"
     ∧ ∃ e, HomeAssistant.config_entries hass'
              !! fstr (ConfigFlow.entry_id self) = Some e
          ∧ ConfigEntry.data e = {[ "key" := "0m0d3s2c" ]}).
Proof.
  unfold ConfigFlow.async_step_user.
  destruct (user_input !! CONF_ADDRESS) as [address|]; [|done].
  destruct (ConfigFlow._abort_if_unique_id_configured _ _); [|done].
  destruct (ConfigFlow._discovered_devices _ !! address) as [name|]; [|done].
  intros Hstep.
  apply _async_get_or_create_entry_data in Hstep
    as [(title & -> & _)|(-> & e & He & Hd)].
  - left. by exists title.
  - right. split; [done|]. by exists e.
Qed.

Lemma async_step_user_stores_fixed_key_witness :
  ConfigFlow.async_step_user (lib := Samples.parser)
    Samples.flow_after_scan Samples.hass (Some {[ "address" := "AA:BB" ]})
  = (Ok (create_entry "Fever Smart" {[ "key" := "0m0d3s2c" ]}),
     ConfigFlow.mk None None {[ "AA:BB" := "Fever Smart" ]}
       (Some "AA:BB") (Some "Fever Smart") None,
     Samples.hass)
  ∧ ({[ "address" := "AA:BB" ]} : gmap string string) !! "key" = None
  ∧ ((∃ title, create_entry "Fever Smart" {[ "key" := "0m0d3s2c" ]}
               = create_entry title {[ "key" := "0m0d3s2c" ]})
     ∨ (create_entry "Fever Smart" {[ "key" := "0m0d3s2c" ]}
        = abort "reauth_successful"
        ∧ ∃ e, HomeAssistant.config_entries Samples.hass
                 !! fstr (ConfigFlow.entry_id Samples.flow_after_scan) = Some e
             ∧ ConfigEntry.data e = {[ "key" := "0m0d3s2c" ]})).
Proof.
  split; [vm_compute; reflexivity|]. split; [reflexivity|].
  apply (async_step_user_stores_fixed_key (lib := Samples.parser)
           Samples.flow_after_scan
           (ConfigFlow.mk None None {[ "AA:BB" := "Fever Smart" ]}
              (Some "AA:BB") (Some "Fever Smart") None)
           Samples.hass Samples.hass {[ "address" := "AA:BB" ]}).
  vm_compute. reflexivity.
Defined.

(** C7.  In the discovery step, an advertisement the parser does not
    support ends the flow with reason ["not_supported"] and leaves the flow
    and the hub as they were; for a supported one the unique ID of the flow
    becomes the parser's [primary_device_id], and when an entry with that
    unique ID is configured the flow is aborted, without recording the
    discovery and without showing a form. *)
Theorem async_step_bluetooth_guards {lib : pyfeversmart}
    (self : ConfigFlow.t) (hass : HomeAssistant.t)
    (discovery_info : BluetoothServiceInfo.t) :
  ((supported discovery_info).2 = false →
   ConfigFlow.async_step_bluetooth self hass discovery_info
   = (Ok (abort "not_supported"), self, hass))
  ∧ ((supported discovery_info).2 = true →
     ConfigFlow.unique_id
       (ConfigFlow.async_step_bluetooth self hass discovery_info).1.2
     = FeverSmartAdvParser.primary_device_id (supported discovery_info).1
     ∧ ∀ u id e,
         FeverSmartAdvParser.primary_device_id (supported discovery_info).1
         = Some u →
         HomeAssistant.config_entries hass !! id = Some e →
         ConfigEntry.unique_id e = Some u →
         ConfigFlow.async_step_bluetooth self hass discovery_info
         = (Raise (AbortFlow "already_configured"),
            ConfigFlow.async_set_unique_id (Some u) self, hass)
         ∧ ConfigFlow.flow_result
             (ConfigFlow.async_step_bluetooth self hass discovery_info).1.1
           = Ok (abort "already_configured")).
Proof.
  unfold ConfigFlow.async_step_bluetooth.
  destruct (supported discovery_info) as [device ok]. simpl. split.
  - by intros ->.
  - intros ->. simpl. split.
    + destruct (ConfigFlow._abort_if_unique_id_configured _ _); [|done].
      unfold ConfigFlow.async_step_bluetooth_confirm. done.
    + intros u id e Hu He Hid. rewrite Hu.
      unfold ConfigFlow._abort_if_unique_id_configured. simpl.
      rewrite decide_True; [done|].
      apply elem_of__async_current_ids. by exists id, e.
Qed.

Lemma async_step_bluetooth_guards_witness :
  (supported (pyfeversmart := Samples.parser) Samples.adv_other).2 = false
  ∧ ConfigFlow.async_step_bluetooth (lib := Samples.parser)
      Samples.flow Samples.hass Samples.adv_other
    = (Ok (abort "not_supported"), Samples.flow, Samples.hass)
  ∧ (supported (pyfeversmart := Samples.parser) Samples.adv_fever).2 = true
  ∧ ConfigFlow.flow_result
      (ConfigFlow.async_step_bluetooth (lib := Samples.parser)
         Samples.flow Samples.hass_configured Samples.adv_fever).1.1
    = Ok (abort "already_configured").
Proof.
  split; [reflexivity|]. split.
  { apply (proj1 (async_step_bluetooth_guards (lib := Samples.parser)
                    Samples.flow Samples.hass Samples.adv_other)).
    reflexivity. }
  split; [reflexivity|].
  apply (proj2 (proj2 (async_step_bluetooth_guards (lib := Samples.parser)
                         Samples.flow Samples.hass_configured Samples.adv_fever)
                  eq_refl)
           "AA:BB" "e1" (ConfigEntry.mk "e1" (Some "AA:BB") "Fever Smart" ∅)).
  - reflexivity.
  - reflexivity.
  - reflexivity.
Defined.

Lemma elem_of_dom_scan_step {lib : pyfeversmart} (current : gset string)
    (discovered : gmap string string) (x : BluetoothServiceInfo.t)
    (a : string) :
  a ∈ dom (ConfigFlow.scan_step current discovered x)
  ↔ a ∈ dom discovered
    ∨ (a = BluetoothServiceInfo.address x ∧ (a ∉ current)
       ∧ (supported x).2 = true).
Proof.
  unfold ConfigFlow.scan_step.
  destruct (decide _) as [Hskip|Hnew].
  - split; [by left|]. intros [Ha|(-> & Hcur & _)]; [done|].
    by destruct Hskip.
  - destruct (supported x) as [device ok]. simpl. destruct ok.
    + rewrite dom_insert_L, elem_of_union, elem_of_singleton. split.
      * intros [->|Ha]; [|by left]. right. split; [done|]. split; [|done].
        intros Hcur. apply Hnew. by left.
      * intros [Ha|(-> & _)]; [by right|by left].
    + split; [by left|]. by intros [Ha|(_ & _ & [=])].
Qed.

Lemma elem_of_dom_scan {lib : pyfeversmart} (current : gset string)
    (infos : list BluetoothServiceInfo.t) (discovered : gmap string string)
    (a : string) :
  a ∈ dom (foldl (ConfigFlow.scan_step current) discovered infos)
  ↔ a ∈ dom discovered
    ∨ ((a ∉ current)
       ∧ ∃ x, x ∈ infos ∧ BluetoothServiceInfo.address x = a
              ∧ (supported x).2 = true).
Proof.
  revert discovered. induction infos as [|x infos IH]; intros discovered; simpl.
  - split; [by left|]. intros [Ha|(_ & x & Hx & _)]; [done|].
    by apply elem_of_nil in Hx.
  - rewrite IH, elem_of_dom_scan_step. split.
    + intros [[Ha|(-> & Hcur & Hs)]|(Hcur & y & Hy & Hay & Hs)].
      * by left.
      * right. split; [done|]. exists x. split; [apply elem_of_cons; by left|done].
      * right. split; [done|]. exists y. split; [apply elem_of_cons; by right|done].
    + intros [Ha|(Hcur & y & Hy & Hay & Hs)]; [by left; left|].
      apply elem_of_cons in Hy as [->|Hy].
      * left. right. by rewrite Hay.
      * right. split; [done|]. by exists y.
Qed.

(** C10, as amended.  When a flow that has discovered nothing yet (as
    [__init__] leaves it) enters the user step without input, the
    addresses it offers are exactly those of the
    scanned advertisements that the parser supports and whose address is
    not the unique ID of a configured entry.  When there is none, the step
    aborts with reason ["no_devices_found"]; otherwise it shows the
    selection form over them. *)
Theorem async_step_user_scan {lib : pyfeversmart}
    (self : ConfigFlow.t) (hass : HomeAssistant.t) :
  ConfigFlow._discovered_devices self = ∅ →
  let discovered :=
    foldl (ConfigFlow.scan_step (ConfigFlow._async_current_ids hass)) ∅
      (HomeAssistant.discovered_service_info hass) in
  (∀ a, a ∈ dom discovered
        ↔ (a ∉ ConfigFlow._async_current_ids hass)
          ∧ ∃ x, x ∈ HomeAssistant.discovered_service_info hass
                 ∧ BluetoothServiceInfo.address x = a
                 ∧ (supported x).2 = true)
  ∧ ((∀ x, x ∈ HomeAssistant.discovered_service_info hass →
           BluetoothServiceInfo.address x ∈ ConfigFlow._async_current_ids hass
           ∨ (supported x).2 = false) →
     ConfigFlow.async_step_user self hass None
     = (Ok (abort "no_devices_found"), self, hass))
  ∧ (discovered ≠ ∅ →
     ConfigFlow.async_step_user self hass None
     = (Ok (show_form "user" (address_schema discovered) None),
        ConfigFlow.with_discovered_devices discovered self, hass))
  ∧ (∀ step_id choices placeholders self' hass' a,
       ConfigFlow.async_step_user self hass None
       = (Ok (show_form step_id (address_schema choices) placeholders),
          self', hass') →
       a ∈ dom choices → a ∉ ConfigFlow._async_current_ids hass).
Proof.
  intros Hfresh discovered.
  assert (Hdom : ∀ a, a ∈ dom discovered
        ↔ (a ∉ ConfigFlow._async_current_ids hass)
          ∧ ∃ x, x ∈ HomeAssistant.discovered_service_info hass
                 ∧ BluetoothServiceInfo.address x = a
                 ∧ (supported x).2 = true).
  { intros a. unfold discovered. rewrite elem_of_dom_scan, dom_empty_L.
    split; [|by right]. intros [Ha|Ha]; [|done]. by apply elem_of_empty in Ha. }
  split; [exact Hdom|].
  unfold ConfigFlow.async_step_user. rewrite Hfresh. fold discovered.
  split; [|split].
  - intros Hnone. assert (Hempty : discovered = ∅).
    { apply map_empty. intros a. apply not_elem_of_dom. rewrite Hdom.
      intros (Hcur & x & Hx & <- & Hs).
      destruct (Hnone x Hx) as [Hin|Hf]; [done|congruence]. }
    rewrite decide_True by done. rewrite Hempty, <- Hfresh.
    by destruct self.
  - intros Hne. by rewrite decide_False.
  - intros step_id choices placeholders self' hass' a.
    destruct (decide (discovered = ∅)); [done|].
    intros [= _ <- _ _ _] Ha. by apply Hdom in Ha as [Hcur _].
Qed.

Lemma async_step_user_scan_witness :
  ConfigFlow.async_step_user (lib := Samples.parser)
    (ConfigFlow.__init__ None) Samples.hass_configured None
  = (Ok (abort "no_devices_found"), ConfigFlow.__init__ None,
     Samples.hass_configured)
  ∧ ConfigFlow.async_step_user (lib := Samples.parser)
      (ConfigFlow.__init__ None) Samples.hass None
    = (Ok (show_form "user" (address_schema {[ "AA:BB" := "Fever Smart" ]})
             None),
       ConfigFlow.with_discovered_devices {[ "AA:BB" := "Fever Smart" ]}
         (ConfigFlow.__init__ None),
       Samples.hass).
Proof.
  split.
  - apply (proj1 (proj2 (async_step_user_scan (lib := Samples.parser)
                           (ConfigFlow.__init__ None) Samples.hass_configured
                           eq_refl))).
    intros x Hx. simpl in Hx.
    apply elem_of_cons in Hx as [->|Hx].
    + left. apply elem_of__async_current_ids.
      exists "e1", (ConfigEntry.mk "e1" (Some "AA:BB") "Fever Smart" ∅).
      split; reflexivity.
    + apply elem_of_cons in Hx as [->|Hx]; [by right|].
      by apply elem_of_nil in Hx.
  - apply (proj1 (proj2 (proj2 (async_step_user_scan (lib := Samples.parser)
                                   (ConfigFlow.__init__ None) Samples.hass
                                   eq_refl)))).
    vm_compute. discriminate.
Defined.

(** C10 as stated fails on a flow that already holds a discovered device:
    the scan does not remove it.  Here every scanned advertisement is
    configured or unsupported, so that no unconfigured supported device is
    discovered, and yet the step shows the selection form and offers the
    configured address [AA:BB]. *)
Lemma async_step_user_offers_configured_address :
  (∀ x, x ∈ HomeAssistant.discovered_service_info Samples.hass_configured →
        BluetoothServiceInfo.address x
          ∈ ConfigFlow._async_current_ids Samples.hass_configured
        ∨ (supported (pyfeversmart := Samples.parser) x).2 = false)
  ∧ "AA:BB" ∈ ConfigFlow._async_current_ids Samples.hass_configured
  ∧ ConfigFlow.async_step_user (lib := Samples.parser)
      Samples.flow_after_scan Samples.hass_configured None
    = (Ok (show_form "user" (address_schema {[ "AA:BB" := "Fever Smart" ]})
             None),
       Samples.flow_after_scan, Samples.hass_configured)
  ∧ ConfigFlow.async_step_user (lib := Samples.parser)
      Samples.flow_after_scan Samples.hass_configured None
    ≠ (Ok (abort "no_devices_found"), Samples.flow_after_scan,
       Samples.hass_configured).
Proof.
  assert (Hconf : "AA:BB"
                  ∈ ConfigFlow._async_current_ids Samples.hass_configured).
  { apply elem_of__async_current_ids.
    exists "e1", (ConfigEntry.mk "e1" (Some "AA:BB") "Fever Smart" ∅).
    split; reflexivity. }
  assert (Hstep : ConfigFlow.async_step_user (lib := Samples.parser)
                    Samples.flow_after_scan Samples.hass_configured None
                  = (Ok (show_form "user"
                           (address_schema {[ "AA:BB" := "Fever Smart" ]})
                           None),
                     Samples.flow_after_scan, Samples.hass_configured))
    by (vm_compute; reflexivity).
  split; [|split; [exact Hconf|split; [exact Hstep|]]].
  - intros x Hx. simpl in Hx.
    apply elem_of_cons in Hx as [->|Hx]; [by left|].
    apply elem_of_cons in Hx as [->|Hx]; [by right|].
    by apply elem_of_nil in Hx.
  - rewrite Hstep. discriminate.
Qed.

(** * Further properties of the code *)

(** ** Errors and sizes of the translation *)

(** The translation raises exactly when a description has no device
    class, and then it is the assertion of [_to_sensor_key] that fails: the
    subscript [SENSOR_DESCRIPTIONS[...]] is guarded by the filter and never
    raises [KeyError]. *)
Theorem translation_raises_iff (u : SensorUpdate.t) :
  (sensor_update_to_bluetooth_data_update u = Raise AssertionError
   ↔ ∃ k d, SensorUpdate.entity_descriptions u !! k = Some d
            ∧ SensorDescription.device_class d = None)
  ∧ ∀ e, sensor_update_to_bluetooth_data_update u = Raise e
         → e = AssertionError.
Proof.
  split; [split|].
  - intros Hraise.
    destruct (decide (map_Forall
                (λ _ d, is_Some (SensorDescription.device_class d))
                (SensorUpdate.entity_descriptions u))) as [Hall|Hnot].
    + destruct (sensor_update_to_bluetooth_data_update_total u Hall) as [r Hr].
      congruence.
    + apply map_not_Forall in Hnot; [|apply _].
      destruct Hnot as (k & d & Hk & Hd). exists k, d. split; [done|].
      destruct (SensorDescription.device_class d); [|done].
      destruct Hd. by eexists.
  - apply sensor_update_to_bluetooth_data_update_raises.
  - intros e. unfold sensor_update_to_bluetooth_data_update.
    pose proof (entity_descriptions_comp_spec
                  (SensorUpdate.entity_descriptions u)) as Hspec.
    destruct (entity_descriptions_comp _) as [acc|e']; simpl; [done|].
    destruct Hspec as [-> _]. by intros [= <-].
Qed.

Section dict_comp_size.
Context {K1 K2 A B : Type} `{Countable K1} `{Countable K2}.
Context (fk : K1 → K2) (fv : K1 → A → B) `{!Inj (=) (=) fk}.

Lemma size_dict_comp_fresh (m : gmap K1 A) :
  size (dict_comp fk fv m) = size m
  ∧ ∀ i, m !! i = None → dict_comp fk fv m !! fk i = None.
Proof.
  unfold dict_comp.
  apply (map_fold_weak_ind
    (λ (r : gmap K2 B) (m : gmap K1 A),
       size r = size m ∧ ∀ i, m !! i = None → r !! fk i = None)).
  - split; [by rewrite !map_size_empty|]. intros i _. apply lookup_empty.
  - intros i x m' r Hi [Hsize Hfresh]. split.
    + rewrite !map_size_insert_None; [by rewrite Hsize|done|by apply Hfresh].
    + intros i' Hi'. apply lookup_insert_None in Hi' as [Hi' Hne].
      rewrite lookup_insert_ne; [by apply Hfresh|].
      intros Heq. by apply (inj fk) in Heq.
Qed.

Lemma size_dict_comp (m : gmap K1 A) : size (dict_comp fk fv m) = size m.
Proof. apply size_dict_comp_fresh. Qed.
End dict_comp_size.

Lemma size_entity_descriptions_comp
    (m : gmap DeviceKey.t SensorDescription.t)
    (acc : gmap PassiveBluetoothEntityKey.t SensorEntityDescription.t) :
  entity_descriptions_comp m = Ok acc → (size acc ≤ size m)%nat.
Proof.
  unfold entity_descriptions_comp. revert acc.
  enough (match map_fold entity_descriptions_step (Ok ∅) m with
          | Ok acc =>
              (size acc ≤ size m)%nat
              ∧ ∀ i, m !! i = None →
                     acc !! _device_key_to_bluetooth_entity_key i = None
          | Raise _ => True
          end) as Hm.
  { intros acc Hacc. rewrite Hacc in Hm. by destruct Hm. }
  apply (map_fold_weak_ind
    (λ r (m : gmap DeviceKey.t SensorDescription.t),
       match r with
       | Ok acc =>
           (size acc ≤ size m)%nat
           ∧ ∀ i, m !! i = None →
                  acc !! _device_key_to_bluetooth_entity_key i = None
       | Raise _ => True
       end)).
  - split; [by rewrite !map_size_empty|]. intros i _. apply lookup_empty.
  - intros i x m' r Hi IH. unfold entity_descriptions_step.
    destruct r as [acc|e]; simpl; [|done]. destruct IH as [Hsize Hfresh].
    destruct (_to_sensor_key x) as [sk|e]; simpl; [|done].
    destruct (SENSOR_DESCRIPTIONS !! sk) as [d|].
    + split.
      * rewrite !map_size_insert_None; [lia|done|by apply Hfresh].
      * intros i' Hi'. apply lookup_insert_None in Hi' as [Hi' Hne].
        rewrite lookup_insert_ne; [by apply Hfresh|].
        intros Heq. by apply (inj _) in Heq.
    + split.
      * rewrite map_size_insert_None by done. lia.
      * intros i' Hi'. apply lookup_insert_None in Hi' as [Hi' Hne].
        by apply Hfresh.
Qed.

(** A translated update has one device per input device, one value and one
    name per input sensor value (no two sensor values are merged), and at
    most one description per input description. *)
Theorem translation_sizes (u : SensorUpdate.t)
    (r : PassiveBluetoothDataUpdate.t) :
  sensor_update_to_bluetooth_data_update u = Ok r →
  size (PassiveBluetoothDataUpdate.devices r) = size (SensorUpdate.devices u)
  ∧ size (PassiveBluetoothDataUpdate.entity_data r)
    = size (SensorUpdate.entity_values u)
  ∧ size (PassiveBluetoothDataUpdate.entity_names r)
    = size (SensorUpdate.entity_values u)
  ∧ (size (PassiveBluetoothDataUpdate.entity_descriptions r)
     ≤ size (SensorUpdate.entity_descriptions u))%nat.
Proof.
  unfold sensor_update_to_bluetooth_data_update.
  destruct (entity_descriptions_comp _) as [acc|e] eqn:Hacc; simpl; [|done].
  intros [= <-]. simpl.
  rewrite (size_dict_comp (λ device_id : option string, device_id))
    by apply _.
  rewrite !(size_dict_comp _device_key_to_bluetooth_entity_key) by apply _.
  split; [done|]. split; [done|]. split; [done|].
  by apply size_entity_descriptions_comp.
Qed.

Lemma translation_sizes_witness :
  ∃ r, sensor_update_to_bluetooth_data_update Samples.update = Ok r
     ∧ size (PassiveBluetoothDataUpdate.entity_data r) = 2
     ∧ (size (PassiveBluetoothDataUpdate.entity_descriptions r) ≤ 3)%nat.
Proof.
  eexists. split; [reflexivity|].
  destruct (translation_sizes Samples.update _ eq_refl)
    as (_ & Hdata & _ & Hdesc).
  split; [exact Hdata|exact Hdesc].
Defined.

(** Every description of a translated update, under whatever entity key,
    is the entry of [SENSOR_DESCRIPTIONS] for a description of the input
    with the same key fields, and it keeps the kind: temperature stays
    temperature in degrees Celsius, battery stays battery in percent, and
    signal strength stays signal strength in dBm, which alone is a
    diagnostic entity that is disabled by default. *)
Theorem translated_descriptions_keep_kind (u : SensorUpdate.t)
    (r : PassiveBluetoothDataUpdate.t) (j : PassiveBluetoothEntityKey.t)
    (e : SensorEntityDescription.t) :
  sensor_update_to_bluetooth_data_update u = Ok r →
  PassiveBluetoothDataUpdate.entity_descriptions r !! j = Some e →
  ∃ d c,
    SensorUpdate.entity_descriptions u
      !! DeviceKey.mk (PassiveBluetoothEntityKey.key j)
           (PassiveBluetoothEntityKey.device_id j) = Some d
    ∧ SensorDescription.device_class d = Some c
    ∧ SensorEntityDescription.state_class e = SensorStateClass.MEASUREMENT
    ∧ ((c = SSDSensorDeviceClass.TEMPERATURE
        ∧ SensorEntityDescription.device_class e = SensorDeviceClass.TEMPERATURE
        ∧ SensorEntityDescription.native_unit_of_measurement e = "°C"
        ∧ SensorEntityDescription.entity_registry_enabled_default e = true
        ∧ SensorEntityDescription.entity_category e = None)
       ∨ (c = SSDSensorDeviceClass.BATTERY
          ∧ SensorEntityDescription.device_class e = SensorDeviceClass.BATTERY
          ∧ SensorEntityDescription.native_unit_of_measurement e = "%"
          ∧ SensorEntityDescription.entity_registry_enabled_default e = true
          ∧ SensorEntityDescription.entity_category e = None)
       ∨ (c = SSDSensorDeviceClass.SIGNAL_STRENGTH
          ∧ SensorEntityDescription.device_class e
            = SensorDeviceClass.SIGNAL_STRENGTH
          ∧ SensorEntityDescription.native_unit_of_measurement e = "dBm"
          ∧ SensorEntityDescription.entity_registry_enabled_default e = false
          ∧ SensorEntityDescription.entity_category e
            = Some EntityCategory.DIAGNOSTIC)).
Proof.
  intros Hr Hj.
  destruct (sensor_update_to_bluetooth_data_update_Ok u r Hr)
    as (_ & _ & Hdesc & _).
  destruct j as [key device_id]. simpl.
  specialize (Hdesc (DeviceKey.mk key device_id)).
  unfold _device_key_to_bluetooth_entity_key in Hdesc. simpl in Hdesc.
  rewrite Hj in Hdesc.
  destruct (SensorUpdate.entity_descriptions u !! _) as [d|]; [|done].
  simpl in Hdesc. unfold description_entry in Hdesc.
  destruct (SensorDescription.device_class d) as [c|] eqn:Hc; [|done].
  exists d, c. split; [done|]. split; [done|].
  symmetry in Hdesc. unfold SENSOR_DESCRIPTIONS in Hdesc.
  apply lookup_insert_Some in Hdesc as [[[= <- _] <-]|[_ Hdesc]].
  { split; [done|]. right. right. done. }
  apply lookup_insert_Some in Hdesc as [[[= <- _] <-]|[_ Hdesc]].
  { split; [done|]. right. left. done. }
  apply lookup_insert_Some in Hdesc as [[[= <- _] <-]|[_ Hdesc]].
  { split; [done|]. left. done. }
  by rewrite lookup_empty in Hdesc.
Qed.

Lemma translated_descriptions_keep_kind_witness :
  ∃ r d c,
    sensor_update_to_bluetooth_data_update Samples.update = Ok r
    ∧ SensorUpdate.entity_descriptions Samples.update
        !! DeviceKey.mk "battery" (Some "dev1") = Some d
    ∧ SensorDescription.device_class d = Some c.
Proof.
  eexists.
  destruct (translated_descriptions_keep_kind Samples.update _
              (PassiveBluetoothEntityKey.mk "battery" (Some "dev1"))
              (SensorEntityDescription.mk "battery_%" SensorDeviceClass.BATTERY
                 PERCENTAGE SensorStateClass.MEASUREMENT true None)
              eq_refl eq_refl) as (d & c & Hd & Hc & _).
  exists d, c. split; [reflexivity|]. split; [exact Hd|exact Hc].
Defined.

(** ** Device infos *)

Lemma identifiers_of_device_info (sensor_device_info : SensorDeviceInfo.t)
    (device_id : option string) :
  DeviceInfo.ATTR_IDENTIFIERS
    (sensor_device_info_to_hass_device_info sensor_device_info device_id)
  = Some {[ id_str DOMAIN; id_of device_id ]}.
Proof.
  unfold sensor_device_info_to_hass_device_info.
  by destruct sensor_device_info as [[?|] [?|] [?|] [?|] ?].
Qed.

Lemma size_identifiers (device_id : option string) :
  size ({[ id_str DOMAIN; id_of device_id ]} : gset identifier)
  = if decide (device_id = Some DOMAIN) then 1 else 2.
Proof.
  case_decide as Hid.
  - rewrite Hid. unfold id_of. rewrite union_idemp_L. apply size_singleton.
  - rewrite size_union, !size_singleton; [done|].
    apply disjoint_singleton_l. rewrite elem_of_singleton.
    destruct device_id as [s|]; unfold id_of; [|done].
    intros [= <-]. by destruct Hid.
Qed.

(** The converted device info holds a name, manufacturer, model and
    software version exactly where the sensor device info has one (an
    absent value is left out, not stored as [None]); the hardware version
    is not carried over; and the identifier set holds [DOMAIN] and the
    device ID, which are two elements unless the device ID is the string
    [DOMAIN] itself. *)
Theorem device_info_fields
    (name model manufacturer sw_version hw_version : option string)
    (device_id : option string) :
  let device_info :=
    sensor_device_info_to_hass_device_info
      (SensorDeviceInfo.mk name model manufacturer sw_version hw_version)
      device_id in
  DeviceInfo.ATTR_NAME device_info = Some <$> name
  ∧ DeviceInfo.ATTR_MANUFACTURER device_info = manufacturer
  ∧ DeviceInfo.ATTR_MODEL device_info = model
  ∧ DeviceInfo.ATTR_SW_VERSION device_info = sw_version
  ∧ (∀ hw_version',
       sensor_device_info_to_hass_device_info
         (SensorDeviceInfo.mk name model manufacturer sw_version hw_version')
         device_id
       = device_info)
  ∧ (∃ ids, DeviceInfo.ATTR_IDENTIFIERS device_info = Some ids
            ∧ id_str DOMAIN ∈ ids ∧ id_of device_id ∈ ids
            ∧ size ids = if decide (device_id = Some DOMAIN) then 1 else 2).
Proof.
  intros device_info. split; [|split; [|split; [|split; [|split]]]].
  - unfold device_info, sensor_device_info_to_hass_device_info.
    by destruct name, model, manufacturer, sw_version.
  - unfold device_info, sensor_device_info_to_hass_device_info.
    by destruct name, model, manufacturer, sw_version.
  - unfold device_info, sensor_device_info_to_hass_device_info.
    by destruct name, model, manufacturer, sw_version.
  - unfold device_info, sensor_device_info_to_hass_device_info.
    by destruct name, model, manufacturer, sw_version.
  - intros hw_version'. reflexivity.
  - exists {[ id_str DOMAIN; id_of device_id ]}.
    split; [apply identifiers_of_device_info|].
    split; [apply elem_of_union_l, elem_of_singleton; reflexivity|].
    split; [apply elem_of_union_r, elem_of_singleton; reflexivity|].
    apply size_identifiers.
Qed.

(** ** Unique IDs and values of entities *)

Lemma string_app_nil (t : string) : "" ++ t = t.
Proof. reflexivity. Qed.

Lemma string_app_cons (a : Ascii.ascii) (s t : string) :
  String a s ++ t = String a (s ++ t).
Proof. reflexivity. Qed.

Lemma string_app_assoc (s1 s2 s3 : string) :
  (s1 ++ s2) ++ s3 = s1 ++ s2 ++ s3.
Proof.
  induction s1 as [|a s1 IH]; [reflexivity|].
  rewrite !string_app_cons. f_equal. exact IH.
Qed.

Lemma dash_split (d1 d2 k1 k2 : string) :
  has_dash d1 = false → has_dash d2 = false →
  d1 ++ "-" ++ k1 = d2 ++ "-" ++ k2 → d1 = d2 ∧ k1 = k2.
Proof.
  revert d2. induction d1 as [|a d1 IH]; intros [|b d2];
    rewrite ?string_app_nil, ?string_app_cons.
  - intros _ _ Heq. split; [done|]. by injection Heq.
  - intros _ Hb Heq. injection Heq as <- _. simpl in Hb. discriminate Hb.
  - intros Ha _ Heq. injection Heq as -> _. simpl in Ha. discriminate Ha.
  - intros Ha Hb Heq. injection Heq as -> Heq. simpl in Ha, Hb.
    destruct (Ascii.eqb b (Ascii.ascii_of_nat 45)); [discriminate Ha|].
    destruct (IH d2 Ha Hb Heq) as [-> ->]. done.
Qed.

(** When the device IDs hold no ["-"], the unique ID determines the entity
    key up to the spelling of the device ID ([None] reads ["None"]): two
    entities with equal unique IDs have equal keys and equally spelled
    device IDs. *)
Theorem unique_id_injective_without_dash
    (super1 super2 : gmap PassiveBluetoothEntityKey.t NativeValue →
                     PassiveBluetoothEntityKey.t →
                     SensorEntityDescription.t →
                     FeverSmartBluetoothSensorEntity.t)
    (p1 p2 : gmap PassiveBluetoothEntityKey.t NativeValue)
    (k1 k2 : PassiveBluetoothEntityKey.t)
    (d1 d2 : SensorEntityDescription.t) :
  has_dash (fstr (PassiveBluetoothEntityKey.device_id k1)) = false →
  has_dash (fstr (PassiveBluetoothEntityKey.device_id k2)) = false →
  FeverSmartBluetoothSensorEntity._attr_unique_id
    (FeverSmartBluetoothSensorEntity.__init__ super1 p1 k1 d1)
  = FeverSmartBluetoothSensorEntity._attr_unique_id
      (FeverSmartBluetoothSensorEntity.__init__ super2 p2 k2 d2) →
  fstr (PassiveBluetoothEntityKey.device_id k1)
  = fstr (PassiveBluetoothEntityKey.device_id k2)
  ∧ PassiveBluetoothEntityKey.key k1 = PassiveBluetoothEntityKey.key k2.
Proof.
  intros H1 H2 Heq. unfold FeverSmartBluetoothSensorEntity.__init__ in Heq.
  simpl in Heq. apply (inj Some) in Heq. by apply dash_split.
Qed.

Lemma unique_id_injective_without_dash_witness :
  fstr (Some "dev1") = fstr (Some "dev1") ∧ "temperature" = "temperature".
Proof.
  apply (unique_id_injective_without_dash
           Samples.entity_super__init__ Samples.entity_super__init__ ∅ ∅
           (PassiveBluetoothEntityKey.mk "temperature" (Some "dev1"))
           (PassiveBluetoothEntityKey.mk "temperature" (Some "dev1"))
           Samples.description Samples.description);
    reflexivity.
Defined.

(** In general the unique ID does not determine the entity key: a ["-"]
    can be read as part of the device ID or of the key, and the device ID
    [None] gives the same unique ID as the device ID ["None"]. *)
Theorem unique_id_collisions
    (super__init__ : gmap PassiveBluetoothEntityKey.t NativeValue →
                     PassiveBluetoothEntityKey.t →
                     SensorEntityDescription.t →
                     FeverSmartBluetoothSensorEntity.t)
    (processor : gmap PassiveBluetoothEntityKey.t NativeValue)
    (description : SensorEntityDescription.t) :
  (∀ device_id a key,
     FeverSmartBluetoothSensorEntity._attr_unique_id
       (FeverSmartBluetoothSensorEntity.__init__ super__init__ processor
          (PassiveBluetoothEntityKey.mk key (Some (device_id ++ "-" ++ a)))
          description)
     = FeverSmartBluetoothSensorEntity._attr_unique_id
         (FeverSmartBluetoothSensorEntity.__init__ super__init__ processor
            (PassiveBluetoothEntityKey.mk (a ++ "-" ++ key) (Some device_id))
            description))
  ∧ (∀ key,
       FeverSmartBluetoothSensorEntity._attr_unique_id
         (FeverSmartBluetoothSensorEntity.__init__ super__init__ processor
            (PassiveBluetoothEntityKey.mk key None) description)
       = FeverSmartBluetoothSensorEntity._attr_unique_id
           (FeverSmartBluetoothSensorEntity.__init__ super__init__ processor
              (PassiveBluetoothEntityKey.mk key (Some "None")) description)).
Proof.
  split; [|reflexivity].
  intros device_id a key. unfold FeverSmartBluetoothSensorEntity.__init__.
  simpl. f_equal. rewrite !string_app_assoc. reflexivity.
Qed.

(** An entity that reads from a processor holding the [entity_data] of a
    translated update reports, under the converted device key, the native
    value of the sensor value of that key, and nothing when the update has
    no such sensor value.  The parent constructor is only required to store
    the processor and the entity key. *)
Theorem native_value_of_translated_update
    (super__init__ : gmap PassiveBluetoothEntityKey.t NativeValue →
                     PassiveBluetoothEntityKey.t →
                     SensorEntityDescription.t →
                     FeverSmartBluetoothSensorEntity.t)
    (u : SensorUpdate.t) (r : PassiveBluetoothDataUpdate.t)
    (k : DeviceKey.t) (description : SensorEntityDescription.t) :
  (∀ p key d,
     FeverSmartBluetoothSensorEntity.processor_entity_data
       (super__init__ p key d) = p
     ∧ FeverSmartBluetoothSensorEntity.entity_key (super__init__ p key d)
       = key) →
  sensor_update_to_bluetooth_data_update u = Ok r →
  FeverSmartBluetoothSensorEntity.native_value
    (FeverSmartBluetoothSensorEntity.__init__ super__init__
       (PassiveBluetoothDataUpdate.entity_data r)
       (_device_key_to_bluetooth_entity_key k) description)
  = SensorValue.native_value <$> SensorUpdate.entity_values u !! k.
Proof.
  intros Hsuper Hr.
  destruct (sensor_update_to_bluetooth_data_update_Ok u r Hr)
    as (_ & _ & _ & Hdata & _).
  unfold FeverSmartBluetoothSensorEntity.native_value,
    FeverSmartBluetoothSensorEntity.__init__. simpl.
  destruct (Hsuper (PassiveBluetoothDataUpdate.entity_data r)
              (_device_key_to_bluetooth_entity_key k) description)
    as [-> ->].
  apply Hdata.
Qed.

Lemma native_value_of_translated_update_witness :
  ∃ r, sensor_update_to_bluetooth_data_update Samples.update = Ok r
     ∧ FeverSmartBluetoothSensorEntity.native_value
         (FeverSmartBluetoothSensorEntity.__init__ Samples.entity_super__init__
            (PassiveBluetoothDataUpdate.entity_data r)
            (_device_key_to_bluetooth_entity_key Samples.k_batt)
            Samples.description)
       = Some (IntValue 80).
Proof.
  destruct (sensor_update_to_bluetooth_data_update_total Samples.update)
    as [r Hr].
  { simpl. repeat (apply map_Forall_insert_2; [by eexists|]).
    apply map_Forall_empty. }
  exists r. split; [exact Hr|].
  rewrite (native_value_of_translated_update Samples.entity_super__init__
             Samples.update r Samples.k_batt Samples.description
             (λ p key d, conj eq_refl eq_refl) Hr).
  reflexivity.
Defined.

(** ** Starting coordinators *)

Lemma dispatch_async_start
    (self : PassiveBluetoothProcessorCoordinator.t) (hass : HomeAssistant.t)
    (service_info : BluetoothServiceInfo.t) :
  dispatch
    (FeverSmartPassiveBluetoothProcessorCoordinator._async_start self hass).2
    service_info
  = (dispatch hass service_info
     ++ (if bool_decide
              (8199%Z ∈ dom (BluetoothServiceInfo.manufacturer_data
                               service_info))
         then ["_async_handle_bluetooth_event"] else []))%list.
Proof.
  unfold dispatch.
  rewrite _async_start_callbacks, filter_app, fmap_app. f_equal.
  rewrite filter_cons, filter_nil. simpl.
  rewrite ble_device_matches_manufacturer.
  destruct (bool_decide _) eqn:Hb; by case_decide.
Qed.

(** Starting a coordinator appends exactly two cancel handles to
    [_on_stop], which refer to the advertisement callback and the
    unavailability tracker it has just registered.  The tracker watches the
    coordinator's own address with its own [connectable] flag; the
    coordinator's address, mode and flag, and the entries, the seen
    advertisements and the tasks of the hub stay as they were. *)
Theorem async_start_handles_and_frame
    (self : PassiveBluetoothProcessorCoordinator.t) (hass : HomeAssistant.t) :
  let self' :=
    (FeverSmartPassiveBluetoothProcessorCoordinator._async_start self hass).1 in
  let hass' :=
    (FeverSmartPassiveBluetoothProcessorCoordinator._async_start self hass).2 in
  PassiveBluetoothProcessorCoordinator._on_stop self'
  = (PassiveBluetoothProcessorCoordinator._on_stop self
     ++ [ cancel_callback (length (HomeAssistant.bluetooth_callbacks hass));
          cancel_unavailable
            (length (HomeAssistant.unavailable_trackers hass)) ])%list
  ∧ HomeAssistant.bluetooth_callbacks hass'
      !! length (HomeAssistant.bluetooth_callbacks hass)
    = Some {| reg_callback := "_async_handle_bluetooth_event";
              reg_matcher :=
                BluetoothCallbackMatcher.mk None (Some 8199%Z) (Some false);
              reg_mode := PassiveBluetoothProcessorCoordinator.mode self |}
  ∧ HomeAssistant.unavailable_trackers hass'
      !! length (HomeAssistant.unavailable_trackers hass)
    = Some {| trk_callback := "_async_handle_unavailable";
              trk_address := PassiveBluetoothProcessorCoordinator.address self;
              trk_connectable :=
                PassiveBluetoothProcessorCoordinator.connectable self |}
  ∧ length (HomeAssistant.unavailable_trackers hass')
    = S (length (HomeAssistant.unavailable_trackers hass))
  ∧ PassiveBluetoothProcessorCoordinator.address self'
    = PassiveBluetoothProcessorCoordinator.address self
  ∧ PassiveBluetoothProcessorCoordinator.mode self'
    = PassiveBluetoothProcessorCoordinator.mode self
  ∧ PassiveBluetoothProcessorCoordinator.connectable self'
    = PassiveBluetoothProcessorCoordinator.connectable self
  ∧ HomeAssistant.config_entries hass' = HomeAssistant.config_entries hass
  ∧ HomeAssistant.discovered_service_info hass'
    = HomeAssistant.discovered_service_info hass
  ∧ HomeAssistant.tasks hass' = HomeAssistant.tasks hass.
Proof.
  intros self' hass'. unfold self', hass',
    FeverSmartPassiveBluetoothProcessorCoordinator._async_start. simpl.
  split; [by rewrite <- app_assoc|].
  split; [by rewrite lookup_app_r, Nat.sub_diag|].
  split; [by rewrite lookup_app_r, Nat.sub_diag|].
  split; [rewrite length_app; simpl; lia|]. done.
Qed.

(** The matcher names no address: every started coordinator, whatever its
    address and [connectable] flag, is handed every advertisement with data
    of manufacturer 8199, so that with two coordinators started (or one
    started twice) such an advertisement is delivered twice. *)
Theorem two_started_coordinators_both_receive
    (self1 self2 : PassiveBluetoothProcessorCoordinator.t)
    (hass : HomeAssistant.t) (service_info : BluetoothServiceInfo.t) :
  8199%Z ∈ dom (BluetoothServiceInfo.manufacturer_data service_info) →
  dispatch
    (FeverSmartPassiveBluetoothProcessorCoordinator._async_start self2
       (FeverSmartPassiveBluetoothProcessorCoordinator._async_start
          self1 hass).2).2
    service_info
  = (dispatch hass service_info
     ++ [ "_async_handle_bluetooth_event";
          "_async_handle_bluetooth_event" ])%list.
Proof.
  intros Hm. rewrite !dispatch_async_start.
  rewrite bool_decide_eq_true_2 by done. by rewrite <- app_assoc.
Qed.

Lemma two_started_coordinators_both_receive_witness :
  dispatch
    (FeverSmartPassiveBluetoothProcessorCoordinator._async_start
       MoreSamples.coordinator_other
       (FeverSmartPassiveBluetoothProcessorCoordinator._async_start
          Samples.coordinator Samples.hass).2).2
    Samples.adv_fever
  = [ "_async_handle_bluetooth_event"; "_async_handle_bluetooth_event" ].
Proof.
  apply (two_started_coordinators_both_receive Samples.coordinator
           MoreSamples.coordinator_other Samples.hass Samples.adv_fever).
  apply elem_of_dom. eexists. reflexivity.
Defined.

(** ** Creating and updating entries *)

(** [_async_get_or_create_entry] fails in two ways only: with
    [AssertionError] exactly when the context names an entry that does not
    exist, and with [KeyError] exactly when the context names no entry and
    holds no title placeholders.  When it fails the hub is as before, and
    it never changes the flow. *)
Theorem get_or_create_entry_errors (self : ConfigFlow.t)
    (hass : HomeAssistant.t) (key : option string) :
  ((ConfigFlow._async_get_or_create_entry self hass key).1.1
   = Raise AssertionError
   ↔ truthy (ConfigFlow.entry_id self) = true
     ∧ HomeAssistant.config_entries hass !! fstr (ConfigFlow.entry_id self)
       = None)
  ∧ ((ConfigFlow._async_get_or_create_entry self hass key).1.1 = Raise KeyError
     ↔ truthy (ConfigFlow.entry_id self) = false
       ∧ ConfigFlow.title_placeholders self = None)
  ∧ (∀ e, (ConfigFlow._async_get_or_create_entry self hass key).1.1 = Raise e →
          (e = AssertionError ∨ e = KeyError)
          ∧ (ConfigFlow._async_get_or_create_entry self hass key).2 = hass)
  ∧ (ConfigFlow._async_get_or_create_entry self hass key).1.2 = self.
Proof.
  unfold ConfigFlow._async_get_or_create_entry.
  destruct (truthy (ConfigFlow.entry_id self)).
  - destruct (HomeAssistant.config_entries hass !! _) as [entry|]; simpl.
    + split; [split; [done|by intros [_ [=]]]|].
      split; [split; [done|by intros [[=] _]]|]. done.
    + split; [done|]. split; [split; [done|by intros [[=] _]]|].
      split; [|done]. intros e [= <-]. split; [by left|done].
  - destruct (ConfigFlow.title_placeholders self) as [name|]; simpl.
    + split; [split; [done|by intros [[=] _]]|].
      split; [split; [done|by intros [_ [=]]]|]. done.
    + split; [split; [done|by intros [[=] _]]|]. split; [done|].
      split; [|done]. intros e [= <-]. split; [by right|done].
Qed.

(** When the context names an existing entry, the entry is updated in
    place: its data is replaced as a whole by the new data (which is empty
    when the key is empty, so that an old key is erased), its ID, unique ID
    and title are kept, the other entries are untouched, one reload of the
    entry is scheduled, and the flow ends with ["reauth_successful"]. *)
Theorem reauth_replaces_entry_data (self : ConfigFlow.t)
    (hass : HomeAssistant.t) (key : option string) (entry : ConfigEntry.t) :
  truthy (ConfigFlow.entry_id self) = true →
  HomeAssistant.config_entries hass !! fstr (ConfigFlow.entry_id self)
  = Some entry →
  let hass' := (ConfigFlow._async_get_or_create_entry self hass key).2 in
  (ConfigFlow._async_get_or_create_entry self hass key).1
  = (Ok (abort "reauth_successful"), self)
  ∧ HomeAssistant.config_entries hass' !! fstr (ConfigFlow.entry_id self)
    = Some (ConfigEntry.mk (ConfigEntry.entry_id entry)
              (ConfigEntry.unique_id entry) (ConfigEntry.title entry)
              (if truthy key then {[ "key" := fstr key ]} else ∅))
  ∧ (∀ id, id ≠ fstr (ConfigFlow.entry_id self) →
           HomeAssistant.config_entries hass' !! id
           = HomeAssistant.config_entries hass !! id)
  ∧ HomeAssistant.tasks hass'
    = (HomeAssistant.tasks hass ++ [ConfigEntry.entry_id entry])%list
  ∧ ConfigFlow._async_current_ids hass' = ConfigFlow._async_current_ids hass.
Proof.
  intros Hid Hentry hass'. unfold hass', ConfigFlow._async_get_or_create_entry.
  rewrite Hid, Hentry. simpl. split; [done|].
  split; [apply lookup_insert_eq|].
  split; [intros id Hne; by apply lookup_insert_ne|]. split; [done|].
  apply set_eq. intros u. rewrite !elem_of__async_current_ids. simpl. split.
  - intros (id & e & He & Hu).
    destruct (decide (fstr (ConfigFlow.entry_id self) = id)) as [<-|Hne].
    + rewrite lookup_insert_eq in He. injection He as <-. simpl in Hu.
      by exists (fstr (ConfigFlow.entry_id self)), entry.
    + rewrite lookup_insert_ne in He by done. by exists id, e.
  - intros (id & e & He & Hu).
    destruct (decide (fstr (ConfigFlow.entry_id self) = id)) as [<-|Hne].
    + eexists _, _. rewrite lookup_insert_eq. split; [done|]. simpl.
      rewrite Hentry in He. by injection He as <-.
    + exists id, e. by rewrite lookup_insert_ne.
Qed.

Lemma reauth_replaces_entry_data_witness :
  HomeAssistant.config_entries
    (ConfigFlow._async_get_or_create_entry MoreSamples.flow_reauth
       MoreSamples.hass_two_entries (Some "")).2 !! "e1"
  = Some (ConfigEntry.mk "e1" (Some "AA:BB") "Fever Smart" ∅).
Proof.
  apply (proj1 (proj2 (reauth_replaces_entry_data MoreSamples.flow_reauth
                         MoreSamples.hass_two_entries (Some "")
                         (ConfigEntry.mk "e1" (Some "AA:BB") "Fever Smart"
                            {[ "key" := "old"; "stale" := "x" ]})
                         eq_refl eq_refl))).
Defined.

(** The confirm step refuses to run on a flow that holds no discovery: it
    fails with [AssertionError] whatever the input, before reading it.  On
    a flow with a discovery, an input without ["key"] fails with
    [KeyError].  Neither failure changes the flow or the hub. *)
Theorem confirm_step_errors (self : ConfigFlow.t) (hass : HomeAssistant.t) :
  (ConfigFlow._discovered_device self = None
   ∨ ConfigFlow._discovery_info self = None →
   ∀ user_input,
     ConfigFlow.async_step_bluetooth_confirm self hass user_input
     = (Raise AssertionError, self, hass))
  ∧ (is_Some (ConfigFlow._discovered_device self) →
     is_Some (ConfigFlow._discovery_info self) →
     ∀ user_input : gmap string string,
       user_input !! "key" = None →
       ConfigFlow.async_step_bluetooth_confirm self hass (Some user_input)
       = (Raise KeyError, self, hass)).
Proof.
  unfold ConfigFlow.async_step_bluetooth_confirm. split.
  - intros [Hd|Hi] user_input.
    + by rewrite Hd.
    + rewrite Hi. by destruct (ConfigFlow._discovered_device self).
  - intros [device ->] [info ->] user_input Hkey. by rewrite Hkey.
Qed.

(** ** The discovery path, end to end *)

(** A supported advertisement whose device is not configured leads to the
    confirm form, titled by the parser's title, else the parser's device
    name, else the name of the advertisement; the flow then holds the
    discovery and the unique ID.  Submitting a key on that form (in a
    context without entry ID) creates an entry with that title whose data
    is the key alone, or nothing at all when the key is empty; further
    fields of the input are not stored. *)
Theorem discovery_then_confirm {lib : pyfeversmart}
    (self : ConfigFlow.t) (hass : HomeAssistant.t)
    (discovery_info : BluetoothServiceInfo.t)
    (user_input : gmap string string) (key : string) :
  (supported discovery_info).2 = true →
  (∀ u, FeverSmartAdvParser.primary_device_id (supported discovery_info).1
        = Some u → u ∉ ConfigFlow._async_current_ids hass) →
  truthy (ConfigFlow.entry_id self) = false →
  user_input !! "key" = Some key →
  let device := (supported discovery_info).1 in
  let title :=
    or_else (FeverSmartAdvParser.title device)
      (FeverSmartAdvParser.device_name device)
      (BluetoothServiceInfo.name discovery_info) in
  let self1 :=
    ConfigFlow.mk (Some discovery_info) (Some device)
      (ConfigFlow._discovered_devices self)
      (FeverSmartAdvParser.primary_device_id device) (Some title)
      (ConfigFlow.entry_id self) in
  ConfigFlow.async_step_bluetooth self hass discovery_info
  = (Ok (show_form "bluetooth_confirm" key_schema (Some title)), self1, hass)
  ∧ ConfigFlow.async_step_bluetooth_confirm self1 hass (Some user_input)
    = (Ok (create_entry title
             (if String.eqb key "" then ∅ else {[ "key" := key ]})),
       self1, hass).
Proof.
  intros Hs Hfree Hid Hkey device title self1.
  unfold self1, title, device, ConfigFlow.async_step_bluetooth.
  destruct (supported discovery_info) as [dev ok]. simpl in *. subst ok.
  simpl. split.
  - unfold ConfigFlow._abort_if_unique_id_configured. simpl.
    destruct (FeverSmartAdvParser.primary_device_id dev) as [u|] eqn:Hu.
    + rewrite decide_False by by apply Hfree. done.
    + done.
  - unfold ConfigFlow.async_step_bluetooth_confirm. simpl. rewrite Hkey.
    unfold ConfigFlow._async_get_or_create_entry. simpl. rewrite Hid.
    by destruct (String.eqb key "").
Qed.

Lemma discovery_then_confirm_witness :
  ConfigFlow.async_step_bluetooth (lib := Samples.parser)
    Samples.flow Samples.hass Samples.adv_fever
  = (Ok (show_form "bluetooth_confirm" key_schema (Some "Fever Smart")),
     Samples.flow_discovered, Samples.hass)
  ∧ ConfigFlow.async_step_bluetooth_confirm Samples.flow_discovered
      Samples.hass (Some {[ "key" := "s3cret"; "note" := "x" ]})
    = (Ok (create_entry "Fever Smart" {[ "key" := "s3cret" ]}),
       Samples.flow_discovered, Samples.hass).
Proof.
  apply (discovery_then_confirm (lib := Samples.parser)
           Samples.flow Samples.hass Samples.adv_fever
           {[ "key" := "s3cret"; "note" := "x" ]} "s3cret").
  - reflexivity.
  - intros u [= <-] Hin. apply elem_of__async_current_ids in Hin
      as (id & e & He & _). simpl in He. by rewrite lookup_empty in He.
  - reflexivity.
  - reflexivity.
Defined.

(** The discovery step and the steps entered without input only show
    forms or abort: they never create an entry and never change the hub. *)
Theorem steps_without_input_keep_hub {lib : pyfeversmart}
    (self : ConfigFlow.t) (hass : HomeAssistant.t)
    (discovery_info : BluetoothServiceInfo.t) :
  (ConfigFlow.async_step_bluetooth self hass discovery_info).2 = hass
  ∧ (ConfigFlow.async_step_bluetooth_confirm self hass None).2 = hass
  ∧ (ConfigFlow.async_step_user self hass None).2 = hass
  ∧ (∀ title data,
       (ConfigFlow.async_step_bluetooth self hass discovery_info).1.1
       ≠ Ok (create_entry title data)
       ∧ (ConfigFlow.async_step_bluetooth_confirm self hass None).1.1
         ≠ Ok (create_entry title data)
       ∧ (ConfigFlow.async_step_user self hass None).1.1
         ≠ Ok (create_entry title data)).
Proof.
  assert (Hconfirm : ∀ s,
    (ConfigFlow.async_step_bluetooth_confirm s hass None).2 = hass
    ∧ ∀ title data,
        (ConfigFlow.async_step_bluetooth_confirm s hass None).1.1
        ≠ Ok (create_entry title data)).
  { intros s. unfold ConfigFlow.async_step_bluetooth_confirm.
    destruct (ConfigFlow._discovered_device s); [|done].
    by destruct (ConfigFlow._discovery_info s). }
  assert (Hbt :
    (ConfigFlow.async_step_bluetooth self hass discovery_info).2 = hass
    ∧ ∀ title data,
        (ConfigFlow.async_step_bluetooth self hass discovery_info).1.1
        ≠ Ok (create_entry title data)).
  { unfold ConfigFlow.async_step_bluetooth.
    destruct (supported discovery_info) as [dev ok]. destruct ok; simpl; [|done].
    destruct (ConfigFlow._abort_if_unique_id_configured _ _); [|done].
    apply Hconfirm. }
  assert (Huser :
    (ConfigFlow.async_step_user self hass None).2 = hass
    ∧ ∀ title data,
        (ConfigFlow.async_step_user self hass None).1.1
        ≠ Ok (create_entry title data)).
  { unfold ConfigFlow.async_step_user. by case_decide. }
  split; [apply Hbt|]. split; [apply Hconfirm|]. split; [apply Huser|].
  intros title data. split; [apply Hbt|]. split; [apply Hconfirm|apply Huser].
Qed.

(** ** The user path *)

(** The failures of the user step on an input.  Without an address it
    fails with [KeyError] and changes nothing.  With the address of a
    configured entry the flow is aborted as already configured; with an
    address that is not among the discovered devices it fails with
    [KeyError]: in both cases the address has already become the unique ID
    of the flow. *)
Theorem user_step_input_errors {lib : pyfeversmart}
    (self : ConfigFlow.t) (hass : HomeAssistant.t)
    (user_input : gmap string string) :
  (user_input !! CONF_ADDRESS = None →
   ConfigFlow.async_step_user self hass (Some user_input)
   = (Raise KeyError, self, hass))
  ∧ (∀ address,
       user_input !! CONF_ADDRESS = Some address →
       address ∈ ConfigFlow._async_current_ids hass →
       ConfigFlow.async_step_user self hass (Some user_input)
       = (Raise (AbortFlow "already_configured"),
          ConfigFlow.async_set_unique_id (Some address) self, hass))
  ∧ (∀ address,
       user_input !! CONF_ADDRESS = Some address →
       address ∉ ConfigFlow._async_current_ids hass →
       ConfigFlow._discovered_devices self !! address = None →
       ConfigFlow.async_step_user self hass (Some user_input)
       = (Raise KeyError,
          ConfigFlow.async_set_unique_id (Some address) self, hass)).
Proof.
  unfold ConfigFlow.async_step_user. split; [by intros ->|]. split.
  - intros address -> Hin.
    unfold ConfigFlow._abort_if_unique_id_configured. simpl.
    by rewrite decide_True.
  - intros address -> Hnot Hnone.
    unfold ConfigFlow._abort_if_unique_id_configured. simpl.
    rewrite decide_False by done. by rewrite Hnone.
Qed.

Lemma scan_step_subseteq {lib : pyfeversmart} (current : gset string)
    (discovered : gmap string string) (x : BluetoothServiceInfo.t) :
  discovered ⊆ ConfigFlow.scan_step current discovered x.
Proof.
  unfold ConfigFlow.scan_step. destruct (decide _) as [Hskip|Hnew]; [done|].
  destruct (supported x) as [device ok]. destruct ok; [|done].
  apply insert_subseteq. apply not_elem_of_dom. intros Hin. apply Hnew.
  by right.
Qed.

Lemma scan_subseteq {lib : pyfeversmart} (current : gset string)
    (infos : list BluetoothServiceInfo.t) (discovered : gmap string string) :
  discovered ⊆ foldl (ConfigFlow.scan_step current) discovered infos.
Proof.
  revert discovered. induction infos as [|x infos IH]; intros discovered;
    simpl; [done|].
  etrans; [apply (scan_step_subseteq current discovered x)|apply IH].
Qed.

Lemma scan_fixpoint {lib : pyfeversmart} (current : gset string)
    (infos : list BluetoothServiceInfo.t) (discovered : gmap string string) :
  (∀ x, x ∈ infos →
        BluetoothServiceInfo.address x ∈ current
        ∨ BluetoothServiceInfo.address x ∈ dom discovered
        ∨ (supported x).2 = false) →
  foldl (ConfigFlow.scan_step current) discovered infos = discovered.
Proof.
  induction infos as [|x infos IH]; intros Hall; simpl; [done|].
  assert (Hx : ConfigFlow.scan_step current discovered x = discovered).
  { unfold ConfigFlow.scan_step. destruct (decide _) as [Hskip|Hnew]; [done|].
    destruct (Hall x) as [Hc|[Hd|Hs]]; [apply elem_of_cons; by left|..].
    - destruct Hnew. by left.
    - destruct Hnew. by right.
    - destruct (supported x) as [device ok]. simpl in Hs. by rewrite Hs. }
  rewrite Hx. apply IH. intros y Hy. apply Hall, elem_of_cons. by right.
Qed.

Lemma async_step_user_None {lib : pyfeversmart}
    (self : ConfigFlow.t) (hass : HomeAssistant.t) :
  ConfigFlow.async_step_user self hass None
  = (if decide
          (foldl (ConfigFlow.scan_step (ConfigFlow._async_current_ids hass))
             (ConfigFlow._discovered_devices self)
             (HomeAssistant.discovered_service_info hass) = ∅)
     then Ok (abort "no_devices_found")
     else Ok (show_form "user"
                (address_schema
                   (foldl
                      (ConfigFlow.scan_step (ConfigFlow._async_current_ids hass))
                      (ConfigFlow._discovered_devices self)
                      (HomeAssistant.discovered_service_info hass)))
                None),
     ConfigFlow.with_discovered_devices
       (foldl (ConfigFlow.scan_step (ConfigFlow._async_current_ids hass))
          (ConfigFlow._discovered_devices self)
          (HomeAssistant.discovered_service_info hass))
       self,
     hass).
Proof. unfold ConfigFlow.async_step_user. by case_decide. Qed.

(** Entering the user step without input never forgets or renames a device
    the flow has already discovered: the devices held before are held
    after, under the same names. *)
Theorem user_scan_keeps_discovered {lib : pyfeversmart}
    (self : ConfigFlow.t) (hass : HomeAssistant.t) :
  ConfigFlow._discovered_devices self
  ⊆ ConfigFlow._discovered_devices
      (ConfigFlow.async_step_user self hass None).1.2.
Proof.
  unfold ConfigFlow.async_step_user. case_decide; simpl; apply scan_subseteq.
Qed.

(** Entering the user step without input a second time, on the same hub,
    changes nothing: the second scan finds the flow already holding every
    device it would add, so the flow stays as the first scan left it and
    the same result is returned. *)
Theorem user_scan_idempotent {lib : pyfeversmart}
    (self : ConfigFlow.t) (hass : HomeAssistant.t) :
  ConfigFlow.async_step_user
    (ConfigFlow.async_step_user self hass None).1.2 hass None
  = ConfigFlow.async_step_user self hass None.
Proof.
  assert (Hfix :
    foldl (ConfigFlow.scan_step (ConfigFlow._async_current_ids hass))
      (foldl (ConfigFlow.scan_step (ConfigFlow._async_current_ids hass))
         (ConfigFlow._discovered_devices self)
         (HomeAssistant.discovered_service_info hass))
      (HomeAssistant.discovered_service_info hass)
    = foldl (ConfigFlow.scan_step (ConfigFlow._async_current_ids hass))
        (ConfigFlow._discovered_devices self)
        (HomeAssistant.discovered_service_info hass)).
  { apply scan_fixpoint. intros x Hx.
    destruct (decide (BluetoothServiceInfo.address x
                      ∈ ConfigFlow._async_current_ids hass)) as [Hc|Hc];
      [by left|].
    destruct ((supported x).2) eqn:Hs; [|by right; right].
    right. left. apply elem_of_dom_scan. right. split; [done|]. by exists x. }
  rewrite (async_step_user_None self hass), async_step_user_None. simpl.
  rewrite Hfix. reflexivity.
Qed.

(** A device the flow discovered earlier stays on offer under its name,
    also when it has been configured in the meantime: the scan skips
    configured addresses but does not remove them. *)
Theorem earlier_discoveries_stay_offered {lib : pyfeversmart}
    (self : ConfigFlow.t) (hass : HomeAssistant.t) (address name : string) :
  ConfigFlow._discovered_devices self !! address = Some name →
  ∃ choices,
    (ConfigFlow.async_step_user self hass None).1.1
    = Ok (show_form "user" (address_schema choices) None)
    ∧ choices !! address = Some name.
Proof.
  intros Hheld. rewrite async_step_user_None. simpl.
  pose proof (scan_subseteq (ConfigFlow._async_current_ids hass)
                (HomeAssistant.discovered_service_info hass)
                (ConfigFlow._discovered_devices self)) as Hsub.
  assert (Hin : foldl (ConfigFlow.scan_step (ConfigFlow._async_current_ids hass))
                  (ConfigFlow._discovered_devices self)
                  (HomeAssistant.discovered_service_info hass) !! address
                = Some name)
    by (eapply lookup_weaken; [exact Hheld|exact Hsub]).
  eexists. split; [|exact Hin].
  rewrite decide_False; [done|]. intros Hempty.
  rewrite Hempty, lookup_empty in Hin. discriminate Hin.
Qed.

Lemma earlier_discoveries_stay_offered_witness :
  ConfigFlow._discovered_devices Samples.flow_after_scan !! "AA:BB"
  = Some "Fever Smart"
  ∧ ∃ choices,
      (ConfigFlow.async_step_user (lib := Samples.parser)
         Samples.flow_after_scan Samples.hass_configured None).1.1
      = Ok (show_form "user" (address_schema choices) None)
      ∧ choices !! "AA:BB" = Some "Fever Smart".
Proof.
  split; [reflexivity|].
  apply (earlier_discoveries_stay_offered (lib := Samples.parser)
           Samples.flow_after_scan Samples.hass_configured
           "AA:BB" "Fever Smart").
  reflexivity.
Defined.

(** Every address that a flow which had discovered nothing offers can be
    submitted: in a context without entry ID the user step then creates
    the entry, titled by the name shown for the address, and the address
    becomes the unique ID of the flow. *)
Theorem offered_choice_creates_entry {lib : pyfeversmart}
    (self self1 : ConfigFlow.t) (hass hass1 : HomeAssistant.t)
    (step_id : string) (choices : gmap string string)
    (placeholders : option string) (address name : string)
    (user_input : gmap string string) :
  ConfigFlow._discovered_devices self = ∅ →
  truthy (ConfigFlow.entry_id self) = false →
  ConfigFlow.async_step_user self hass None
  = (Ok (show_form step_id (address_schema choices) placeholders),
     self1, hass1) →
  choices !! address = Some name →
  user_input !! CONF_ADDRESS = Some address →
  ConfigFlow.async_step_user self1 hass1 (Some user_input)
  = (Ok (create_entry name {[ "key" := "0m0d3s2c" ]}),
     ConfigFlow.with_title_placeholders name
       (ConfigFlow.async_set_unique_id (Some address) self1),
     hass1).
Proof.
  intros Hfresh Hid Hstep Hchoice Haddr.
  rewrite async_step_user_None, Hfresh in Hstep.
  destruct (decide _) as [|Hne] in Hstep; [done|].
  injection Hstep as _ <- _ <- <-.
  assert (Hfree : address ∉ ConfigFlow._async_current_ids hass).
  { assert (Hdom : address ∈ dom (foldl
                (ConfigFlow.scan_step (ConfigFlow._async_current_ids hass)) ∅
                (HomeAssistant.discovered_service_info hass)))
      by (apply elem_of_dom; by eexists).
    apply elem_of_dom_scan in Hdom as [Hdom|[Hfree _]]; [|done].
    rewrite dom_empty_L in Hdom. by apply elem_of_empty in Hdom. }
  unfold ConfigFlow.async_step_user. rewrite Haddr.
  unfold ConfigFlow._abort_if_unique_id_configured. simpl.
  rewrite decide_False by done. rewrite Hchoice.
  unfold ConfigFlow._async_get_or_create_entry. simpl. by rewrite Hid.
Qed.

Lemma offered_choice_creates_entry_witness :
  ConfigFlow.async_step_user (lib := Samples.parser)
    Samples.flow_after_scan Samples.hass
    (Some {[ "address" := "AA:BB" ]})
  = (Ok (create_entry "Fever Smart" {[ "key" := "0m0d3s2c" ]}),
     ConfigFlow.with_title_placeholders "Fever Smart"
       (ConfigFlow.async_set_unique_id (Some "AA:BB")
          Samples.flow_after_scan),
     Samples.hass).
Proof.
  apply (offered_choice_creates_entry (lib := Samples.parser)
           Samples.flow Samples.flow_after_scan Samples.hass Samples.hass
           "user" {[ "AA:BB" := "Fever Smart" ]} None "AA:BB" "Fever Smart"
           {[ "address" := "AA:BB" ]}).
  - reflexivity.
  - reflexivity.
  - vm_compute. reflexivity.
  - reflexivity.
  - reflexivity.
Defined.

Lemma scan_step_lookup_ne {lib : pyfeversmart} (current : gset string)
    (discovered : gmap string string) (x : BluetoothServiceInfo.t)
    (a : string) :
  BluetoothServiceInfo.address x ≠ a →
  ConfigFlow.scan_step current discovered x !! a = discovered !! a.
Proof.
  intros Hne. unfold ConfigFlow.scan_step. destruct (decide _); [done|].
  destruct (supported x) as [device ok]. destruct ok; [|done].
  by rewrite lookup_insert_ne.
Qed.

Lemma scan_step_unsupported {lib : pyfeversmart} (current : gset string)
    (discovered : gmap string string) (x : BluetoothServiceInfo.t) :
  (supported x).2 = false →
  ConfigFlow.scan_step current discovered x = discovered.
Proof.
  intros Hs. unfold ConfigFlow.scan_step. destruct (decide _); [done|].
  destruct (supported x) as [device ok]. simpl in Hs. by rewrite Hs.
Qed.

Lemma scan_step_new {lib : pyfeversmart} (current : gset string)
    (discovered : gmap string string) (x : BluetoothServiceInfo.t) :
  BluetoothServiceInfo.address x ∉ current →
  discovered !! BluetoothServiceInfo.address x = None →
  (supported x).2 = true →
  ConfigFlow.scan_step current discovered x
  = <[BluetoothServiceInfo.address x :=
        or_else (FeverSmartAdvParser.title (supported x).1)
          (FeverSmartAdvParser.device_name (supported x).1)
          (BluetoothServiceInfo.name x)]> discovered.
Proof.
  intros Hc Hd Hs. unfold ConfigFlow.scan_step.
  destruct (decide _) as [[Hin|Hin]|_].
  - done.
  - apply elem_of_dom in Hin as [n Hn]. congruence.
  - destruct (supported x) as [device ok]. simpl in *. by rewrite Hs.
Qed.

Lemma scan_first_supported {lib : pyfeversmart} (current : gset string)
    (infos : list BluetoothServiceInfo.t) (discovered : gmap string string)
    (a n : string) :
  discovered !! a = None →
  foldl (ConfigFlow.scan_step current) discovered infos !! a = Some n →
  ∃ l1 x l2,
    infos = (l1 ++ x :: l2)%list
    ∧ BluetoothServiceInfo.address x = a
    ∧ (a ∉ current)
    ∧ (supported x).2 = true
    ∧ n = or_else (FeverSmartAdvParser.title (supported x).1)
            (FeverSmartAdvParser.device_name (supported x).1)
            (BluetoothServiceInfo.name x)
    ∧ ∀ y, y ∈ l1 → BluetoothServiceInfo.address y = a →
           (supported y).2 = false.
Proof.
  revert discovered. induction infos as [|x infos IH]; intros discovered Hnone;
    simpl; [congruence|].
  intros Hn.
  assert (Hcur : a ∉ current).
  { intros Hc.
    assert (Hdom : a ∈ dom (foldl (ConfigFlow.scan_step current)
                              (ConfigFlow.scan_step current discovered x)
                              infos)) by (apply elem_of_dom; by eexists).
    apply elem_of_dom_scan in Hdom as [Hdom|[Hfree _]]; [|done].
    apply elem_of_dom_scan_step in Hdom as [Hdom|(_ & Hfree & _)]; [|done].
    apply elem_of_dom in Hdom as [m Hm]. congruence. }
  destruct (decide (BluetoothServiceInfo.address x = a)) as [Hax|Hax].
  - destruct ((supported x).2) eqn:Hs.
    + exists [], x, infos. split; [done|]. split; [done|]. split; [done|].
      split; [done|]. split.
      * rewrite scan_step_new in Hn; [|by rewrite Hax..|done].
        assert (Hheld : foldl (ConfigFlow.scan_step current)
                          (<[BluetoothServiceInfo.address x :=
                               or_else
                                 (FeverSmartAdvParser.title (supported x).1)
                                 (FeverSmartAdvParser.device_name
                                    (supported x).1)
                                 (BluetoothServiceInfo.name x)]> discovered)
                          infos !! a
                        = Some (or_else
                                  (FeverSmartAdvParser.title (supported x).1)
                                  (FeverSmartAdvParser.device_name
                                     (supported x).1)
                                  (BluetoothServiceInfo.name x))).
        { eapply lookup_weaken; [|apply scan_subseteq].
          rewrite Hax. apply lookup_insert_eq. }
        congruence.
      * intros y Hy. by apply elem_of_nil in Hy.
    + rewrite scan_step_unsupported in Hn by done.
      destruct (IH discovered Hnone Hn)
        as (l1 & x' & l2 & -> & Hx' & _ & Hs' & Hname & Hbefore).
      exists (x :: l1), x', l2. split; [done|]. split; [done|].
      split; [done|]. split; [done|]. split; [done|].
      intros y Hy Hya. apply elem_of_cons in Hy as [->|Hy]; [done|].
      by apply Hbefore.
  - destruct (IH (ConfigFlow.scan_step current discovered x))
      as (l1 & x' & l2 & -> & Hx' & _ & Hs' & Hname & Hbefore).
    { by rewrite scan_step_lookup_ne. }
    { done. }
    exists (x :: l1), x', l2. split; [done|]. split; [done|].
    split; [done|]. split; [done|]. split; [done|].
    intros y Hy Hya. apply elem_of_cons in Hy as [->|Hy]; [done|].
    by apply Hbefore.
Qed.

(** The name a flow which had discovered nothing shows for an address is
    that of the first supported advertisement of the scan with this
    address: the parser's title, else its device name, else the name of
    the advertisement.  Later advertisements of the same address do not
    rename it, and the address is not the unique ID of a configured
    entry. *)
Theorem offered_name_is_first_supported {lib : pyfeversmart}
    (self : ConfigFlow.t) (hass : HomeAssistant.t) (address name : string) :
  ConfigFlow._discovered_devices self = ∅ →
  ConfigFlow._discovered_devices
    (ConfigFlow.async_step_user self hass None).1.2 !! address = Some name →
  ∃ l1 x l2,
    HomeAssistant.discovered_service_info hass = (l1 ++ x :: l2)%list
    ∧ BluetoothServiceInfo.address x = address
    ∧ (address ∉ ConfigFlow._async_current_ids hass)
    ∧ (supported x).2 = true
    ∧ name = or_else (FeverSmartAdvParser.title (supported x).1)
               (FeverSmartAdvParser.device_name (supported x).1)
               (BluetoothServiceInfo.name x)
    ∧ ∀ y, y ∈ l1 → BluetoothServiceInfo.address y = address →
           (supported y).2 = false.
Proof.
  intros Hfresh. rewrite async_step_user_None, Hfresh. simpl.
  apply scan_first_supported. apply lookup_empty.
Qed.

Lemma offered_name_is_first_supported_witness :
  ConfigFlow._discovered_devices
    (ConfigFlow.async_step_user (lib := MoreSamples.parser_without_title)
       Samples.flow MoreSamples.hass_seen_twice None).1.2 !! "AA:BB"
  = Some "FS"
  ∧ ∃ l1 x l2,
      HomeAssistant.discovered_service_info MoreSamples.hass_seen_twice
      = (l1 ++ x :: l2)%list
      ∧ BluetoothServiceInfo.address x = "AA:BB"
      ∧ "FS" = BluetoothServiceInfo.name x.
Proof.
  assert (H : ConfigFlow._discovered_devices
                (ConfigFlow.async_step_user
                   (lib := MoreSamples.parser_without_title)
                   Samples.flow MoreSamples.hass_seen_twice None).1.2
                !! "AA:BB" = Some "FS") by (vm_compute; reflexivity).
  split; [exact H|].
  destruct (offered_name_is_first_supported
              (lib := MoreSamples.parser_without_title)
              Samples.flow MoreSamples.hass_seen_twice "AA:BB" "FS"
              eq_refl H)
    as (l1 & x & l2 & Hl & Hx & _ & _ & Hname & _).
  exists l1, x, l2. split; [exact Hl|]. split; [exact Hx|].
  rewrite Hname. unfold or_else. simpl.
  reflexivity.
Defined.
